(** * Exercise calculator: the console program and its calculators

    A shallow embedding of [Final.py] and [Main.py], the two variants of
    the calorie calculator, and the properties their description states.

    Numbers.  A Python [float] is modelled by an exact rational ([Q]) and a
    Python [int] by [Z] (or by the rational of the same value where the
    source mixes the two in one expression): rounding error, overflow and
    the IEEE values [inf] and [nan] are outside the model.  The two sample
    values the description calls exact are computed in IEEE binary64 as
    well ([Binary64]).

    Console.  The program talks to a terminal; a [world] holds the lines
    still to be read from standard input and the events written so far.
    [input] on an exhausted standard input raises [EOFError], as in Python.

    Text.  A [str] is a Rocq [string] (the UTF-8 bytes of the text); the
    one string the program indexes by character, the three bar glyphs, is
    kept as the list of its characters.  [str.strip] and [str.lower] know
    Unicode (the no-break space is white space, the Kelvin sign has a lower
    case); like [float] they are builtins the program takes as given
    ([Text]), and [PlainText] is what they do to ASCII text.

    Machine.  [s * n] fails when [n] is no index of the machine
    ([OverflowError]) or the string cannot be allocated ([MemoryError]);
    the largest index and the longest string are the machine's
    ([Machine]).  A repetition by a literal count ([CURSOR_UP * 2], the
    line under the title) is written [repeat_string], which is what
    [s * n] gives on a machine that can hold a string of 28 characters
    ([literal_repetitions]). *)

From Stdlib Require Import ZArith QArith Qround Qabs Lia Lqa Bool List String Ascii.
From Stdlib Require Import DecimalString.
From Stdlib Require Floats.
Import ListNotations.

#[local] Open Scope Q_scope.
#[local] Open Scope list_scope.
#[local] Open Scope string_scope.

(** ** Python builtins used by the program *)

Module Py.

(** *** Exceptions and values *)

Inductive exn : Type :=
| EOFError
| ValueError
| IndexError
| TypeError
| NameError
| ZeroDivisionError
| OverflowError
| MemoryError.

(** A value handed to [print]. *)
Inductive value : Type :=
| VStr (s : string)
| VInt (n : Z)
| VNum (x : Q).

(** What the terminal receives: the prompt written by [input], or one call
    of [print] with its arguments, separator and line end. *)
Inductive event : Type :=
| Prompt (text : string)
| Print (args : list value) (sep end_ : string).

Record world : Type := World { stdin : list string; stdout : list event }.

Inductive result (A : Type) : Type :=
| Ok (a : A) (w : world)
| Raise (e : exn) (w : world).
Arguments Ok {A} a w.
Arguments Raise {A} e w.

(** *** The monad of console programs *)

Definition IO (A : Type) : Type := world -> result A.

Definition ret {A} (a : A) : IO A := fun w => Ok a w.

Definition bind {A B} (m : IO A) (k : A -> IO B) : IO B :=
  fun w => match m w with
           | Ok a w' => k a w'
           | Raise e w' => Raise e w'
           end.

Definition raise {A} (e : exn) : IO A := fun w => Raise e w.

(** A pure computation that may raise. *)
Definition lift {A} (r : exn + A) : IO A :=
  match r with
  | inl e => raise e
  | inr a => ret a
  end.

Definition emit (evs : list event) : IO unit :=
  fun w => Ok tt (World (stdin w) (stdout w ++ evs)%list).

Definition NL : string := String "010" EmptyString.

(** [print(a, b)], [print(a, b, sep=s)] and [print(a, b, end=e)]. *)
Definition print_event (args : list value) : event := Print args " " NL.
Definition print_sep_event (args : list value) (sep : string) : event :=
  Print args sep NL.
Definition print_end_event (args : list value) (end_ : string) : event :=
  Print args " " end_.

Definition print (args : list value) : IO unit := emit [print_event args].
Definition print_sep (args : list value) (sep : string) : IO unit :=
  emit [print_sep_event args sep].
Definition print_end (args : list value) (end_ : string) : IO unit :=
  emit [print_end_event args end_].

(** [input(prompt)]: writes the prompt, then takes the next line. *)
Definition input (prompt : string) : IO string :=
  fun w => match stdin w with
           | [] => Raise EOFError (World [] (stdout w ++ [Prompt prompt])%list)
           | line :: rest => Ok line (World rest (stdout w ++ [Prompt prompt])%list)
           end.

(** The loop shared by the three readers,

      [while not done: user_input = input(prompt)...; <body>]

    where the body only prints and decides: [Some a] leaves the loop with
    [a], [None] goes round again.  Each round takes one line, so the loop
    is a recursion on the lines left. *)
Fixpoint read_until {A} (prompt : string) (body : string -> list event * option A)
    (lines : list string) (out : list event) : result A :=
  match lines with
  | [] => Raise EOFError (World [] (out ++ [Prompt prompt])%list)
  | line :: rest =>
      let out' := (out ++ Prompt prompt :: fst (body line))%list in
      match snd (body line) with
      | Some a => Ok a (World rest out')
      | None => read_until prompt body rest out'
      end
  end.

Definition input_loop {A} (prompt : string) (body : string -> list event * option A)
  : IO A :=
  fun w => read_until prompt body (stdin w) (stdout w).

(** *** Strings *)

(** [s.strip()] and [s.lower()]: builtins that know Unicode, not part of
    the program; the readers take them as given. *)
Class Text : Type := { strip : string -> string; lower : string -> string }.

(** [len(s)]: the number of characters of the text, a byte that continues
    a UTF-8 sequence counting for none. *)
Definition is_continuation (c : ascii) : bool :=
  let n := nat_of_ascii c in ((128 <=? n) && (n <? 192))%nat.

Fixpoint len (s : string) : nat :=
  match s with
  | String c s' => if is_continuation c then len s' else S (len s')
  | EmptyString => O
  end.

(** [s] written [n] times. *)
Fixpoint repeat_string (s : string) (n : nat) : string :=
  match n with
  | O => EmptyString
  | S n' => s ++ repeat_string s n'
  end.

(** The machine: [sys.maxsize], its largest index, and the number of
    characters of the longest string it can allocate. *)
Class Machine : Type := { maxsize : Z; memory : Z }.

(** [s * n]: [OverflowError] when [n] is no index of the machine or the
    product of the lengths is none, [MemoryError] when the string cannot be
    allocated; no string is allocated for a count below 2 or an empty [s]. *)
Definition str_mul {machine : Machine} (s : string) (n : Z) : exn + string :=
  if ((n <? - maxsize - 1) || (maxsize <? n))%Z then inl OverflowError
  else if (n <=? 0)%Z then inr EmptyString
  else if (n =? 1)%Z then inr s
  else if (maxsize / n <? Z.of_nat (len s))%Z then inl OverflowError
  else if ((Z.of_nat (len s) =? 0) || (Z.of_nat (len s) * n <=? memory))%Z
       then inr (repeat_string s (Z.to_nat n))
       else inl MemoryError.

(** [s.ljust(width)] *)
Definition ljust (s : string) (width : nat) : string :=
  s ++ repeat_string " " (width - len s).

(** [str(n)] for a natural number. *)
Definition str_of_nat (n : nat) : string :=
  NilEmpty.string_of_uint (Nat.to_uint n).

(** [sep.join(items)] *)
Fixpoint join (sep : string) (items : list string) : string :=
  match items with
  | [] => EmptyString
  | [s] => s
  | s :: rest => s ++ sep ++ join sep rest
  end.

(** *** Lists *)

(** [options.index(x)]: the first position of [x], [None] for [ValueError]. *)
Fixpoint list_index (x : string) (options : list string) : option nat :=
  match options with
  | [] => None
  | o :: rest => if String.eqb o x then Some O else option_map S (list_index x rest)
  end.

(** [l[i]] for an integer [i]; negative positions count from the end. *)
Definition getitem {A} (l : list A) (i : Z) : exn + A :=
  let n := Z.of_nat (List.length l) in
  let j := (if i <? 0 then i + n else i)%Z in
  if ((0 <=? j) && (j <? n))%Z then
    match nth_error l (Z.to_nat j) with
    | Some a => inr a
    | None => inl IndexError
    end
  else inl IndexError.

(** *** Numbers *)

Definition Qlt_bool (x y : Q) : bool := negb (Qle_bool y x).

(** [max(a, b)] and [min(a, b)]: the first argument wins a tie. *)
Definition py_max (a b : Q) : Q := if Qlt_bool a b then b else a.
Definition py_min (a b : Q) : Q := if Qlt_bool b a then b else a.

(** [x / y] *)
Definition truediv (x y : Q) : exn + Q :=
  if Qeq_bool y 0 then inl ZeroDivisionError else inr (x / y).

(** [x // y] *)
Definition floordiv (x y : Q) : exn + Q :=
  if Qeq_bool y 0 then inl ZeroDivisionError else inr (inject_Z (Qfloor (x / y))).

(** [x % y] *)
Definition mod_ (x y : Q) : exn + Q :=
  if Qeq_bool y 0 then inl ZeroDivisionError
  else inr (x - y * inject_Z (Qfloor (x / y))).

(** [int(x)]: truncation towards zero. *)
Definition py_int (x : Q) : Z :=
  if Qlt_bool x 0 then Qceiling x else Qfloor x.

(** [round(x)]: the nearest integer, a tie going to the even one. *)
Definition py_round (x : Q) : Z :=
  let f := Qfloor x in
  match Qcompare (x - inject_Z f) (1 # 2) with
  | Lt => f
  | Gt => (f + 1)%Z
  | Eq => if Z.even f then f else (f + 1)%Z
  end.

(** [round(x, 2)] *)
Definition py_round2 (x : Q) : Q := inject_Z (py_round (x * 100)) / 100.

(** [float(s)]: the number a text denotes, [None] when Python raises
    [ValueError].  The builtin is not part of the program; the readers take
    it as given. *)
Class FloatParser : Type := { py_float : string -> option Q }.

End Py.
Export Py.

Declare Scope io_scope.
Delimit Scope io_scope with io.
Notation "x <- m ;; k" := (bind m (fun x => k))
  (at level 61, m at next level, right associativity) : io_scope.
Notation "m ;;; k" := (bind m (fun _ => k))
  (at level 61, right associativity) : io_scope.

(** ** The builtins on plain text

    What [strip] and [lower] do to ASCII text, for running the program on
    concrete input. *)

Module PlainText.

Definition is_space (c : ascii) : bool :=
  let n := nat_of_ascii c in
  ((9 <=? n) && (n <=? 13) || (28 <=? n) && (n <=? 32))%nat.

Fixpoint lstrip (s : string) : string :=
  match s with
  | String c s' => if is_space c then lstrip s' else s
  | EmptyString => EmptyString
  end.

Fixpoint rstrip (s : string) : string :=
  match s with
  | String c s' =>
      match rstrip s' with
      | EmptyString => if is_space c then EmptyString else String c EmptyString
      | t => String c t
      end
  | EmptyString => EmptyString
  end.

Definition strip (s : string) : string := rstrip (lstrip s).

Definition lower_char (c : ascii) : ascii :=
  let n := nat_of_ascii c in
  if ((65 <=? n) && (n <=? 90))%nat then ascii_of_nat (n + 32) else c.

Fixpoint lower (s : string) : string :=
  match s with
  | String c s' => String (lower_char c) (lower s')
  | EmptyString => EmptyString
  end.

Definition text : Text := Build_Text strip lower.

End PlainText.

(** A 64-bit machine that can hold a string of 2^30 characters, for running
    the program on concrete input. *)
Definition machine64 : Machine := Build_Machine (2 ^ 63 - 1) (2 ^ 30).

(** ** A reader of decimal numerals

    One [FloatParser], for running the program on concrete input: it reads
    the plain decimal numerals [float] accepts (an optional sign, digits
    with an optional point, an optional exponent) and nothing else. *)

Module Decimal.

Definition digit_of (c : ascii) : option Z :=
  let n := nat_of_ascii c in
  if ((48 <=? n) && (n <=? 57))%nat then Some (Z.of_nat (n - 48)) else None.

(** The leading digits of [s] read on top of [acc]: the number so far, how
    many digits were read, and what follows them. *)
Fixpoint digits (acc : Z) (count : nat) (s : string) : Z * nat * string :=
  match s with
  | String c s' =>
      match digit_of c with
      | Some d => digits (10 * acc + d) (S count) s'
      | None => (acc, count, s)
      end
  | EmptyString => (acc, count, s)
  end.

Definition sign (s : string) : bool * string :=
  match s with
  | String "-" s' => (true, s')
  | String "+" s' => (false, s')
  | _ => (false, s)
  end.

Definition exponent (s : string) : option Z :=
  match s with
  | EmptyString => Some 0%Z
  | String "e" s' =>
      let (negative, s'') := sign s' in
      match digits 0 0 s'' with
      | (_, O, _) => None
      | (e, _, EmptyString) => Some (if negative then - e else e)%Z
      | _ => None
      end
  | _ => None
  end.

(** The number a numeral in lower case denotes. *)
Definition number_of_numeral (s : string) : option Q :=
  let (negative, s1) := sign s in
  let '(whole, n_whole, s2) := digits 0 0 s1 in
  let '(mantissa, n_fraction, s3) :=
    match s2 with
    | String "." s' => digits whole 0 s'
    | _ => (whole, O, s2)
    end in
  if (n_whole + n_fraction =? 0)%nat then None
  else
    match exponent s3 with
    | Some e =>
        let magnitude := inject_Z mantissa * 10 ^ (e - Z.of_nat n_fraction) in
        Some (Qred (if negative then - magnitude else magnitude))
    | None => None
    end.

(** Letter case is ignored, so that [1E3] reads as [1e3]. *)
Definition float_of_string (s : string) : option Q :=
  number_of_numeral (PlainText.lower s).

Definition parser : FloatParser := {| py_float := float_of_string |}.

End Decimal.

#[local] Open Scope io_scope.

(** ** What the two variants share

    These definitions read the same in [Final.py] and in [Main.py] (the
    latter writes the METs of intense crawl and sidestroke as the integers
    10 and 7). *)

Definition KILOMETERS_PER_MILE : Q := 1.609344.
Definition KILOGRAMS_PER_POUND : Q := 0.45359237.
Definition ACRES_PER_SQUARE_MILE : Q := 640.
Definition CALORIES_PER_SQUARE : Q := 100.
Definition MINUTES_PER_HOUR : Q := 60.

(** [TERMINAL_SUPPORTS_ESCAPE_SEQUENCES] is [True] in both files. *)
Definition ESC : string := String "027" EmptyString.
Definition CURSOR_UP : string := ESC ++ "[A".
Definition CLEAR_REST_OF_SCREEN : string := ESC ++ "[J".
Definition CLEAR_REST_OF_LINE : string := ESC ++ "[K".

Definition SWIMMING_STYLES : list string :=
  [ "intense backstroke";
    "backstroke";
    "intense breaststroke";
    "breaststroke";
    "butterfly";
    "intense crawl";
    "crawl";
    "sidestroke";
    "high effort treading water";
    "treading water" ].

Definition SWIMMING_STYLE_METS : list Q :=
  [9.5; 4.8; 10.3; 5.3; 13.8; 10.0; 8.3; 7.0; 9.8; 3.5].

Definition TITLE : string := "Daniel's Exercise Calculator".

(** An entry of the list [exercises]: the command and the calories burned. *)
Definition exercise : Type := string * Q.

Definition constrain (lower_limit number upper_limit : Q) : Q :=
  py_min (py_max lower_limit number) upper_limit.

(** Lines 194-199 of [calc_running] ([Main.py]: 98-102), under the name of
    the variable they compute. *)
Definition car_resp_fitness_factor (age_years resting_heart_bpm : Q) : exn + Q :=
  let max_heart_bpm := 208 - 0.7 * age_years in
  match truediv (15.3 * max_heart_bpm) resting_heart_bpm with
  | inl e => inl e
  | inr vo2_max => inr (constrain 1 (1.285 - 0.005 * vo2_max) 1.07)
  end.

(** The three characters of the string the bar takes its last character from. *)
Definition REMAINDER_CHARACTERS : list string := ["░"; "▌"; "█"].

(** [for index in range(n): ...] with the loop's variables threaded as [s]. *)
Fixpoint for_range {S} (indices : list nat) (body : nat -> S -> IO S) (s : S) : IO S :=
  match indices with
  | [] => ret s
  | i :: rest => s' <- body i s ;; for_range rest body s'
  end.

(** ** The arithmetic of two calculators in IEEE binary64

    The value [calc_biking] returns and the value [calc_swimming] returns
    for a given MET, with the floats of CPython in place of the rationals:
    [max] and [min] keep their first argument unless the second is greater
    (smaller), as the builtins do. *)

Module Binary64.
Import Floats.
#[local] Open Scope float_scope.
#[local] Set Warnings "-inexact-float".

Definition py_max (a b : float) : float := if a <? b then b else a.
Definition py_min (a b : float) : float := if b <? a then b else a.

Definition constrain (lower_limit number upper_limit : float) : float :=
  py_min (py_max lower_limit number) upper_limit.

Definition calc_biking (weight_kg distance_mi duration_hours : float) : float :=
  let speed_mph := distance_mi / duration_hours in
  let met := constrain 4 (speed_mph - 5) 16 in
  let calories_burned := duration_hours * met * weight_kg in
  calories_burned.

Definition calc_swimming (weight_kg duration_hours style_met : float) : float :=
  duration_hours * style_met * weight_kg.

Definition swimming_sample : float := calc_swimming 70 0.5 13.8.

(** The rational a float stands for; [None] for an infinity or a NaN. *)
Definition value (x : float) : option Q :=
  match Prim2SF x with
  | S754_zero _ => Some 0%Q
  | S754_finite negative m e =>
      let magnitude := (inject_Z (Zpos m) * 2 ^ e)%Q in
      Some (Qred (if negative then - magnitude else magnitude)%Q)
  | S754_infinity _ | S754_nan => None
  end.

End Binary64.

(** ** [Final.py] *)

Module Final.
Section Program.
Context {parser : FloatParser} {unicode : Text} {machine : Machine}.

Definition CALORIES_BAR_LABEL_SIZE : nat := 15.
Definition LABEL_COLUMN_SIZE : nat := 30.
Definition COMMANDS : list string := ["biking"; "running"; "swimming"; "exit"].

(** One round of the loop of [get_positive_number], after [input]. *)
Definition positive_number_round (line : string) : list event * option Q :=
  let user_input := lower (strip line) in
  let cleared := print_end_event [VStr CLEAR_REST_OF_SCREEN] EmptyString in
  match py_float user_input with
  | Some number =>
      if Qlt_bool 0 number then ([cleared], Some number)
      else
        ([cleared;
          print_event [VStr (user_input ++ " is not greater than zero. Please try again.")];
          print_end_event [VStr (repeat_string CURSOR_UP 2)] EmptyString],
         None)
  | None =>
      ([cleared;
        print_event [VStr ("'" ++ user_input ++ "' is not a number. Please try again.")];
        print_event [VStr "(You must use digits, not words, as in '10', not 'ten'.)"];
        print_end_event [VStr (repeat_string CURSOR_UP 3)] EmptyString],
       None)
  end.

Definition get_positive_number (prompt : string) : IO Q :=
  let prompt := ljust prompt LABEL_COLUMN_SIZE ++ " | " ++ CLEAR_REST_OF_LINE in
  input_loop prompt positive_number_round.

(** One round of the loop of [get_index_of_one_of]. *)
Definition index_round (options : list string) (line : string)
  : list event * option nat :=
  let user_input := lower (strip line) in
  let cleared := print_end_event [VStr CLEAR_REST_OF_SCREEN] EmptyString in
  if user_input =? "options" then
    ((cleared :: print_event [VStr (NL ++ "Options:")]
        :: List.map (fun option => print_event [VStr option]) options)
       ++ [print_event [VStr EmptyString]],
     None)%list
  else
    match list_index user_input options with
    | Some option_index => ([cleared], Some option_index)
    | None =>
        ([cleared;
          print_event [VStr ("'" ++ user_input ++ "' is not an option. Please try again.")];
          print_event [VStr "(To see the possible options, enter 'options'.)"];
          print_end_event [VStr (repeat_string CURSOR_UP 3)] EmptyString],
         None)
    end.

Definition get_index_of_one_of (prompt : string) (options : list string) : IO nat :=
  let prompt := ljust prompt LABEL_COLUMN_SIZE ++ " | " ++ CLEAR_REST_OF_LINE in
  input_loop prompt (index_round options).

(** One round of the loop of [get_yes_or_no]; [prompt] is the padded prompt. *)
Definition yes_or_no_round (prompt default_response : string) (default : option bool)
    (line : string) : list event * option bool :=
  let user_input := lower (strip line) in
  let cleared := print_end_event [VStr CLEAR_REST_OF_SCREEN] EmptyString in
  if (user_input =? "yes") || (user_input =? "y") then ([cleared], Some true)
  else if (user_input =? "no") || (user_input =? "n") then ([cleared], Some false)
  else
    match default with
    | Some response =>
        if user_input =? EmptyString then
          ([cleared;
            print_end_event [VStr CURSOR_UP] EmptyString;
            print_event [VStr (prompt ++ default_response)]],
           Some response)
        else
          ([cleared;
            print_event [VStr ("'" ++ user_input ++ "' is not a yes or no. Please try again.")];
            print_end_event [VStr (repeat_string CURSOR_UP 2)] EmptyString],
           None)
    | None =>
        ([cleared;
          print_event [VStr ("'" ++ user_input ++ "' is not a yes or no. Please try again.")];
          print_end_event [VStr (repeat_string CURSOR_UP 2)] EmptyString],
         None)
    end.

Definition get_yes_or_no (prompt : string) (default : option bool) : IO bool :=
  let default_response :=
    match default with Some true => "yes" | _ => "no" end in
  let prompt :=
    match default with
    | Some _ => prompt ++ " (default: " ++ default_response ++ ")"
    | None => prompt
    end in
  let prompt := ljust prompt LABEL_COLUMN_SIZE ++ " | " ++ CLEAR_REST_OF_LINE in
  input_loop prompt (yes_or_no_round prompt default_response default).

Definition print_stat (label : string) (number : Q) (units : string) : IO unit :=
  print [VStr (ljust label LABEL_COLUMN_SIZE); VStr "|"; VNum (py_round2 number); VStr units].

Definition calc_biking (weight_kg distance_mi duration_hours : Q) : IO Q :=
  speed_mph <- lift (truediv distance_mi duration_hours) ;;
  let met := constrain 4 (speed_mph - 5) 16 in
  print_stat "Metabolic Equivalent of Task" met EmptyString ;;;
  let side_length_mi := distance_mi / 4 in
  let area_square_mi := side_length_mi ^ 2 in
  let area_acres := area_square_mi * ACRES_PER_SQUARE_MILE in
  print_stat "Traced square area" area_square_mi "square miles" ;;;
  print_stat "Traced square area" area_acres "acres" ;;;
  let calories_burned := duration_hours * met * weight_kg in
  ret calories_burned.

Definition calc_running (weight_kg distance_km : Q) : IO Q :=
  age_years <- get_positive_number "Age (in years)?" ;;
  resting_heart_bpm <- get_positive_number "Resting heart rate (in BPM)?" ;;
  on_a_treadmill <- get_yes_or_no "On a treadmill?" (Some false) ;;
  car_resp_fitness_factor <- lift (car_resp_fitness_factor age_years resting_heart_bpm) ;;
  let air_resistance_factor := if negb on_a_treadmill then 0.84 else 0 in
  let calories_burned := (0.95 * weight_kg + air_resistance_factor) * distance_km in
  let calories_burned := calories_burned * car_resp_fitness_factor in
  ret calories_burned.

Definition calc_swimming (weight_kg duration_hours : Q) : IO Q :=
  style_index <- get_index_of_one_of "Swimming style?" SWIMMING_STYLES ;;
  style_met <- lift (getitem SWIMMING_STYLE_METS (Z.of_nat style_index)) ;;
  ret (duration_hours * style_met * weight_kg).

Definition print_calories_bar (label : string) (calories : Q) : IO unit :=
  quotient <- lift (floordiv calories CALORIES_PER_SQUARE) ;;
  let number_of_squares := py_int quotient in
  squares <- lift (str_mul "█" number_of_squares) ;;
  remainder <- lift (mod_ calories CALORIES_PER_SQUARE) ;;
  proportion <- lift (truediv remainder (CALORIES_PER_SQUARE / 2)) ;;
  remainder_character <- lift (getitem REMAINDER_CHARACTERS (py_round proportion)) ;;
  print [VStr (ljust label CALORIES_BAR_LABEL_SIZE ++ squares ++ remainder_character);
         VInt (py_round calories)].

(** A variable still [None] where a number is needed is a [TypeError]. *)
Definition bound (x : option Q) : IO Q :=
  match x with
  | Some v => ret v
  | None => raise TypeError
  end.

Definition run_command (command : string) : IO Q :=
  weight_pounds <- get_positive_number "Weight (in pounds)?" ;;
  let weight_kg := weight_pounds * KILOGRAMS_PER_POUND in
  print_stat "Weight" weight_kg "kilograms" ;;;
  distances <-
    (if (command =? "biking") || (command =? "running") then
       distance_mi <- get_positive_number "Distance (in miles)?" ;;
       let distance_km := distance_mi * KILOMETERS_PER_MILE in
       print_stat "Distance" distance_km "kilometers" ;;;
       ret (Some distance_mi, Some distance_km)
     else ret (None, None)) ;;
  let '(distance_mi, distance_km) := distances in
  duration_hours <-
    (if negb (negb (command =? "biking") && negb (command =? "swimming")) then
       duration_minutes <- get_positive_number "Duration (in minutes)?" ;;
       ret (Some (duration_minutes / MINUTES_PER_HOUR))
     else ret None) ;;
  calories_burned <-
    (if command =? "biking" then
       distance_mi <- bound distance_mi ;;
       duration_hours <- bound duration_hours ;;
       calc_biking weight_kg distance_mi duration_hours
     else if command =? "running" then
       distance_km <- bound distance_km ;;
       calc_running weight_kg distance_km
     else
       duration_hours <- bound duration_hours ;;
       calc_swimming weight_kg duration_hours) ;;
  print_stat "Calories burned" calories_burned "calories" ;;;
  ret calories_burned.

(** One round of the [while not should_exit] loop of [main]: the flag
    [should_exit] and the list [exercises] as the round leaves them. *)
Definition main_round (exercises : list exercise) : IO (bool * list exercise) :=
  print [VStr EmptyString] ;;;
  command_index <- get_index_of_one_of "Command?" COMMANDS ;;
  command <- lift (getitem COMMANDS (Z.of_nat command_index)) ;;
  if command =? "exit" then ret (true, exercises)
  else
    calories_burned <- run_command command ;;
    ret (false, exercises ++ [(command, calories_burned)])%list.

(** The loop itself.  Every round reads at least one line, so [fuel] rounds
    are enough once [fuel] exceeds the number of lines left; [None] is the
    loop cut short for lack of fuel. *)
Fixpoint main_loop (fuel : nat) (exercises : list exercise) (w : world)
  : option (result (list exercise)) :=
  match fuel with
  | O => None
  | S fuel' =>
      match main_round exercises w with
      | Ok (should_exit, exercises') w' =>
          if should_exit then Some (Ok exercises' w')
          else main_loop fuel' exercises' w'
      | Raise e w' => Some (Raise e w')
      end
  end.

(** What [main] prints once the loop is left. *)
Definition print_summary (exercises : list exercise) : IO unit :=
  if (0 <? List.length exercises)%nat then
    let total_calories_burned := 0 in
    print [VStr (NL ++ "Calories burned per exercise:")] ;;;
    total_calories_burned <-
      for_range (seq 0 (List.length exercises))
        (fun index total_calories_burned =>
           entry <- lift (getitem exercises (Z.of_nat index)) ;;
           let label := str_of_nat (index + 1) ++ ". " ++ fst entry in
           print_calories_bar label (snd entry) ;;;
           ret (total_calories_burned + snd entry))
        total_calories_burned ;;
    print [VStr (NL ++ "Total:"); VInt (py_round total_calories_burned); VStr "calories"]
  else if (List.length exercises =? 0)%nat then
    print [VStr (NL ++ "No exercises recorded.")]
  else ret tt.

(** What [main] prints before the loop. *)
Definition print_banner : IO unit :=
  print_sep [VStr TITLE; VStr (repeat_string "─" (len TITLE))] NL ;;;
  print [VStr ("When prompted by a label and question mark, such as 'Command?', "
               ++ "type the relevant information and press enter.")] ;;;
  print [VStr "The commands are:"; VStr (join ", " COMMANDS)].

Definition main (w : world) : option (result unit) :=
  match print_banner w with
  | Ok _ w1 =>
      match main_loop (S (List.length (stdin w1))) [] w1 with
      | Some (Ok exercises w2) => Some (print_summary exercises w2)
      | Some (Raise e w2) => Some (Raise e w2)
      | None => None
      end
  | Raise e w1 => Some (Raise e w1)
  end.

End Program.
End Final.

(** ** [Main.py] *)

Module Main.
Section Program.
Context {parser : FloatParser} {unicode : Text} {machine : Machine}.

Definition LABEL_COLUMN_SIZE : nat := 28.
Definition COMMANDS : list string :=
  ["biking"; "running"; "swimming"; "swimming styles"; "exit"].

(** One round of the loop of [get_positive_number], after [input]. *)
Definition positive_number_round (line : string) : list event * option Q :=
  let user_input := strip line in
  let cleared := print_end_event [VStr CLEAR_REST_OF_SCREEN] EmptyString in
  match py_float user_input with
  | Some number =>
      if Qlt_bool 0 number then ([cleared], Some number)
      else
        ([cleared;
          print_event [VStr "The number must be positive. Please try again."];
          print_end_event [VStr (repeat_string CURSOR_UP 2)] EmptyString],
         None)
  | None =>
      ([cleared;
        print_event [VStr ("'" ++ user_input ++ "' is not a number. Please try again.")];
        print_end_event [VStr (repeat_string CURSOR_UP 2)] EmptyString],
       None)
  end.

Definition get_positive_number (prompt : string) : IO Q :=
  let prompt := ljust prompt LABEL_COLUMN_SIZE ++ " | " ++ CLEAR_REST_OF_LINE in
  input_loop prompt positive_number_round.

(** One round of the loop of [get_index_of_one_of]. *)
Definition index_round (options : list string) (line : string)
  : list event * option nat :=
  let user_input := lower (strip line) in
  let cleared := print_end_event [VStr CLEAR_REST_OF_SCREEN] EmptyString in
  match list_index user_input options with
  | Some option_index => ([cleared], Some option_index)
  | None =>
      ([cleared;
        print_event [VStr ("'" ++ user_input ++ "' is not an option. Please try again.")];
        print_end_event [VStr (repeat_string CURSOR_UP 2)] EmptyString],
       None)
  end.

Definition get_index_of_one_of (prompt : string) (options : list string) : IO nat :=
  let prompt := ljust prompt LABEL_COLUMN_SIZE ++ " | " ++ CLEAR_REST_OF_LINE in
  input_loop prompt (index_round options).

Definition print_stat (label : string) (number : Q) : IO unit :=
  print_sep [VStr (ljust label LABEL_COLUMN_SIZE); VNum (py_round2 number)] " | ".

Definition calc_biking (weight_kg distance_miles duration_hours : Q) : IO Q :=
  speed_mph <- lift (truediv distance_miles duration_hours) ;;
  let met := constrain 4 (speed_mph - 5) 16 in
  print_stat "Metabolic Equivalent of Task" met ;;;
  let side_length_miles := distance_miles / 4 in
  let area_square_miles := side_length_miles ^ 2 in
  let area_acres := area_square_miles * ACRES_PER_SQUARE_MILE in
  print_stat "Traced square area (miles^2)" area_square_miles ;;;
  print_stat "Traced square area (acres)" area_acres ;;;
  let calories_burned := duration_hours * met * weight_kg in
  ret calories_burned.

Definition calc_running (weight_kg distance_km : Q) : IO Q :=
  age_years <- get_positive_number "Age (years)?" ;;
  resting_heart_bpm <- get_positive_number "Resting heart rate (BPM)?" ;;
  car_resp_fitness_factor <- lift (car_resp_fitness_factor age_years resting_heart_bpm) ;;
  let calories_burned :=
    (0.95 * weight_kg + 0.84) * distance_km * car_resp_fitness_factor in
  ret calories_burned.

Definition calc_swimming (weight_kg duration_hours : Q) : IO Q :=
  style_index <- get_index_of_one_of "Swimming style?" SWIMMING_STYLES ;;
  style_met <- lift (getitem SWIMMING_STYLE_METS (Z.of_nat style_index)) ;;
  ret (duration_hours * style_met * weight_kg).

Definition print_calories_bar (label : string) (calories : Q) : IO unit :=
  quotient <- lift (floordiv calories CALORIES_PER_SQUARE) ;;
  let number_of_squares := py_int quotient in
  squares <- lift (str_mul "█" number_of_squares) ;;
  remainder <- lift (mod_ calories CALORIES_PER_SQUARE) ;;
  proportion <- lift (truediv remainder (CALORIES_PER_SQUARE / 2)) ;;
  remainder_character <- lift (getitem REMAINDER_CHARACTERS (py_round proportion)) ;;
  print [VStr (ljust label 13 ++ squares ++ remainder_character);
         VInt (py_round calories)].

(** A variable not assigned in this round where a number is needed. *)
Definition bound (x : option Q) : IO Q :=
  match x with
  | Some v => ret v
  | None => raise NameError
  end.

(** One round of the [while True] loop of [main]: whether the round left
    the loop with [break], and the list [exercises] as the round leaves it. *)
Definition main_round (exercises : list exercise) : IO (bool * list exercise) :=
  print [VStr EmptyString] ;;;
  command_index <- get_index_of_one_of "Command?" COMMANDS ;;
  exit_index <- lift (match list_index "exit" COMMANDS with
                      | Some i => inr i
                      | None => inl ValueError
                      end) ;;
  if (command_index =? exit_index)%nat then ret (true, exercises)
  else
    command <- lift (getitem COMMANDS (Z.of_nat command_index)) ;;
    if command =? "swimming styles" then
      print [VStr (NL ++ "Swimming styles:")] ;;;
      emit (List.map (fun style => print_event [VStr " -"; VStr style]) SWIMMING_STYLES) ;;;
      ret (false, exercises)
    else
      weight_lb <- get_positive_number "Weight (pounds)?" ;;
      let weight_kg := weight_lb * KILOGRAMS_PER_POUND in
      print_stat "Weight (kg)" weight_kg ;;;
      distances <-
        (if (command =? "biking") || (command =? "running") then
           distance_miles <- get_positive_number "Distance (miles)?" ;;
           let distance_km := distance_miles * KILOMETERS_PER_MILE in
           print_stat "Distance (km)" distance_km ;;;
           ret (Some distance_miles, Some distance_km)
         else ret (None, None)) ;;
      let '(distance_miles, distance_km) := distances in
      duration_hours <-
        (if negb (negb (command =? "biking") && negb (command =? "swimming")) then
           duration_minutes <- get_positive_number "Duration (minutes)?" ;;
           ret (Some (duration_minutes / MINUTES_PER_HOUR))
         else ret None) ;;
      calories_burned <-
        (if command =? "biking" then
           distance_miles <- bound distance_miles ;;
           duration_hours <- bound duration_hours ;;
           calc_biking weight_kg distance_miles duration_hours
         else if command =? "running" then
           distance_km <- bound distance_km ;;
           calc_running weight_kg distance_km
         else
           duration_hours <- bound duration_hours ;;
           calc_swimming weight_kg duration_hours) ;;
      print_stat "Calories burned" calories_burned ;;;
      ret (false, exercises ++ [(command, calories_burned)])%list.

(** The loop itself, with [fuel] as in [Final.main_loop]. *)
Fixpoint main_loop (fuel : nat) (exercises : list exercise) (w : world)
  : option (result (list exercise)) :=
  match fuel with
  | O => None
  | S fuel' =>
      match main_round exercises w with
      | Ok (broke, exercises') w' =>
          if broke then Some (Ok exercises' w')
          else main_loop fuel' exercises' w'
      | Raise e w' => Some (Raise e w')
      end
  end.

(** What [main] prints once the loop is left. *)
Definition print_summary (exercises : list exercise) : IO unit :=
  if (0 <? List.length exercises)%nat then
    let total_calories_burned := 0 in
    print [VStr (NL ++ "Calories burned per exercise:")] ;;;
    total_calories_burned <-
      for_range (seq 0 (List.length exercises))
        (fun index total_calories_burned =>
           entry <- lift (getitem exercises (Z.of_nat index)) ;;
           let label := str_of_nat (index + 1) ++ ". " ++ fst entry in
           print_calories_bar label (snd entry) ;;;
           ret (total_calories_burned + snd entry))
        total_calories_burned ;;
    print [VStr (NL ++ "Total:"); VInt (py_round total_calories_burned); VStr "calories"]
  else if (List.length exercises =? 0)%nat then
    print [VStr (NL ++ "No exercises recorded.")]
  else ret tt.

(** What [main] prints before the loop. *)
Definition print_banner : IO unit :=
  print_sep [VStr TITLE; VStr (repeat_string "─" (len TITLE))] NL ;;;
  print [VStr "The commands are:"; VStr (join ", " COMMANDS)].

Definition main (w : world) : option (result unit) :=
  match print_banner w with
  | Ok _ w1 =>
      match main_loop (S (List.length (stdin w1))) [] w1 with
      | Some (Ok exercises w2) => Some (print_summary exercises w2)
      | Some (Raise e w2) => Some (Raise e w2)
      | None => None
      end
  | Raise e w1 => Some (Raise e w1)
  end.

End Program.
End Main.

(** ** Notions used in the statements *)

(** The summary alone prints an integer after a text: the bar of an
    exercise ([print(label + squares + character, round(calories))]) and
    the total ([print("\nTotal:", round(total), "calories")]).  Every
    other event is [quiet]. *)
Definition quiet (ev : event) : Prop :=
  match ev with
  | Print (_ :: VInt _ :: _) _ _ => False
  | _ => True
  end.

(** [advances w w']: the console went from [w] to [w'] by reading lines and
    writing quiet events. *)
Definition advances (w w' : world) : Prop :=
  (exists consumed, stdin w = (consumed ++ stdin w')%list)
  /\ (exists written, stdout w' = (stdout w ++ written)%list /\ Forall quiet written).

(** [keeps m]: whenever [m] ends well, the console has advanced. *)
Definition keeps {A} (m : IO A) : Prop :=
  forall w a w', m w = Ok a w' -> advances w w'.

(** [returns P m]: whenever [m] ends well, its value satisfies [P]. *)
Definition returns {A} (P : A -> Prop) (m : IO A) : Prop :=
  forall w a w', m w = Ok a w' -> P a.

(** [only_eof m]: the one exception [m] can end with is the [EOFError] of
    [input], with no line left to read. *)
Definition only_eof {A} (m : IO A) : Prop :=
  forall w e w', m w = Raise e w' -> e = EOFError /\ stdin w' = [].

(** [consumes m lines a written]: whatever follows them, [m] reads the
    lines [lines] and no other, writes [written] and returns [a]. *)
Definition consumes {A} (m : IO A) (lines : list string) (a : A)
    (written : list event) : Prop :=
  forall rest out,
    m (World (lines ++ rest)%list out) = Ok a (World rest (out ++ written)%list).



(** The blocks of a bar of [calories] are within the machine's reach:
    their number is an index, and a string of that many characters can be
    allocated (none is allocated for fewer than two). *)
Definition bar_fits {machine : Machine} (calories : Q) : Prop :=
  let squares := Qfloor (calories / 100) in
  (- maxsize - 1 <= squares <= maxsize)%Z /\ (squares <= 1 \/ squares <= memory)%Z.

(** An entry of [exercises] as the description wants it. *)
Definition well_formed (entry : exercise) : Prop :=
  In (fst entry) ["biking"; "running"; "swimming"] /\ 0 < snd entry.

(** What a round of the loop may do to [exercises]: put well-formed entries
    at its end, and none in the round that leaves the loop. *)
Definition round_adds (exercises : list exercise) (r : bool * list exercise) : Prop :=
  exists added,
    snd r = (exercises ++ added)%list
    /\ Forall well_formed added
    /\ (fst r = true -> added = []).

(** * Properties of the builtins *)

Section Numbers.

Lemma Qlt_bool_iff (x y : Q) : Qlt_bool x y = true <-> x < y.
Proof.
  unfold Qlt_bool. rewrite negb_true_iff. split; intros H.
  - apply Qnot_le_lt. intros Hle. apply Qle_bool_iff in Hle. congruence.
  - destruct (Qle_bool y x) eqn:E; [|reflexivity].
    apply Qle_bool_iff in E. apply Qlt_not_le in H. contradiction.
Qed.

Lemma Qlt_bool_false_iff (x y : Q) : Qlt_bool x y = false <-> y <= x.
Proof.
  unfold Qlt_bool. rewrite negb_false_iff. apply Qle_bool_iff.
Qed.

Lemma Qeq_bool_false (x y : Q) : ~ x == y -> Qeq_bool x y = false.
Proof.
  intros H. destruct (Qeq_bool x y) eqn:E; [|reflexivity].
  apply Qeq_bool_iff in E. contradiction.
Qed.

Lemma truediv_nonzero (x y : Q) : ~ y == 0 -> truediv x y = inr (x / y).
Proof. intros H. unfold truediv. now rewrite Qeq_bool_false. Qed.

Lemma truediv_positive (x y : Q) : 0 < y -> truediv x y = inr (x / y).
Proof. intros H. apply truediv_nonzero. lra. Qed.

Lemma py_max_cases (a b : Q) :
  (a < b /\ py_max a b = b) \/ (b <= a /\ py_max a b = a).
Proof.
  unfold py_max. destruct (Qlt_bool a b) eqn:E.
  - left. apply Qlt_bool_iff in E. auto.
  - right. apply Qlt_bool_false_iff in E. auto.
Qed.

Lemma py_min_cases (a b : Q) :
  (b < a /\ py_min a b = b) \/ (a <= b /\ py_min a b = a).
Proof.
  unfold py_min. destruct (Qlt_bool b a) eqn:E.
  - left. apply Qlt_bool_iff in E. auto.
  - right. apply Qlt_bool_false_iff in E. auto.
Qed.

Lemma inject_Z_succ_le (j k : Z) : (j < k)%Z -> inject_Z j + 1 <= inject_Z k.
Proof.
  intros H. change 1 with (inject_Z 1). rewrite <- inject_Z_plus.
  rewrite <- Zle_Qle. lia.
Qed.

Lemma floor_fraction (x : Q) : 0 <= x - inject_Z (Qfloor x) < 1.
Proof.
  pose proof (Qfloor_le x) as H1. pose proof (Qlt_floor x) as H2.
  rewrite inject_Z_plus in H2. change (inject_Z 1) with 1 in H2. lra.
Qed.

Lemma py_round_comp (x y : Q) : x == y -> py_round x = py_round y.
Proof.
  intros H. unfold py_round. rewrite (Qfloor_comp _ _ H).
  assert (Hc : Qcompare (x - inject_Z (Qfloor y)) (1 # 2)
               = Qcompare (y - inject_Z (Qfloor y)) (1 # 2)).
  { apply Qcompare_comp; [rewrite H|]; reflexivity. }
  rewrite Hc. reflexivity.
Qed.

(** [round] is within a half of its argument... *)
Lemma py_round_half (x : Q) :
  x - (1 # 2) <= inject_Z (py_round x) <= x + (1 # 2).
Proof.
  unfold py_round. pose proof (floor_fraction x) as Hf.
  destruct (Qcompare_spec (x - inject_Z (Qfloor x)) (1 # 2)) as [E | E | E].
  - destruct (Z.even (Qfloor x)).
    + lra.
    + rewrite inject_Z_plus. change (inject_Z 1) with 1. lra.
  - lra.
  - rewrite inject_Z_plus. change (inject_Z 1) with 1. lra.
Qed.


(** ... and it stays within integer bounds of its argument. *)
Lemma py_round_range (x : Q) (lo hi : Z) :
  inject_Z lo <= x -> x <= inject_Z hi -> (lo <= py_round x <= hi)%Z.
Proof.
  intros Hlo Hhi. pose proof (py_round_half x) as Hk. split.
  - destruct (Z.le_gt_cases lo (py_round x)) as [H | H]; [exact H|].
    apply inject_Z_succ_le in H. lra.
  - destruct (Z.le_gt_cases (py_round x) hi) as [H | H]; [exact H|].
    apply inject_Z_succ_le in H. lra.
Qed.

Lemma py_int_integer (z : Z) : py_int (inject_Z z) = z.
Proof.
  unfold py_int. destruct (Qlt_bool (inject_Z z) 0).
  - apply Qceiling_Z.
  - apply Qfloor_Z.
Qed.

End Numbers.

Section Repetition.
Context {machine : Machine}.

Lemma append_empty (s : string) : s ++ EmptyString = s.
Proof. induction s as [|c s IH]; cbn; [reflexivity | now rewrite IH]. Qed.

(** [s * n] is [s] written [n] times wherever the product of the lengths
    is within the machine's reach. *)
Lemma str_mul_within_reach (s : string) (n : nat) :
  (Z.of_nat n <= maxsize)%Z ->
  (Z.of_nat (len s) * Z.of_nat n <= maxsize)%Z ->
  (Z.of_nat (len s) * Z.of_nat n <= memory)%Z ->
  str_mul s (Z.of_nat n) = inr (repeat_string s n).
Proof.
  intros Hn Hsize Hmemory. unfold str_mul. rewrite Nat2Z.id.
  destruct (Z.ltb_spec (Z.of_nat n) (- maxsize - 1)) as [H1|_]; [lia|].
  destruct (Z.ltb_spec maxsize (Z.of_nat n)) as [H2|_]; [lia|]. cbn [orb].
  destruct (Z.leb_spec (Z.of_nat n) 0) as [H3|H3].
  { replace n with O by lia. reflexivity. }
  destruct (Z.eqb_spec (Z.of_nat n) 1) as [H4|H4].
  { replace n with 1%nat by lia. cbn. now rewrite append_empty. }
  destruct (Z.ltb_spec (maxsize / Z.of_nat n) (Z.of_nat (len s))) as [H5|_].
  { assert (Z.of_nat (len s) <= maxsize / Z.of_nat n)%Z
      by (apply Z.div_le_lower_bound; lia).
    lia. }
  destruct (Z.leb_spec (Z.of_nat (len s) * Z.of_nat n) memory) as [_|H6]; [|lia].
  now rewrite orb_true_r.
Qed.

(** The repetitions by a literal count: the cursor taken up two lines or
    three, and the line under the title.  A machine that can hold a string
    of 28 characters gives what [repeat_string] gives. *)
Lemma literal_repetitions :
  (28 <= maxsize)%Z -> (28 <= memory)%Z ->
  str_mul CURSOR_UP 2 = inr (repeat_string CURSOR_UP 2)
  /\ str_mul CURSOR_UP 3 = inr (repeat_string CURSOR_UP 3)
  /\ str_mul "─" (Z.of_nat (len TITLE)) = inr (repeat_string "─" (len TITLE)).
Proof.
  intros Hsize Hmemory.
  split; [|split].
  - apply (str_mul_within_reach CURSOR_UP 2);
      change (Z.of_nat (len CURSOR_UP)) with 3%Z; lia.
  - apply (str_mul_within_reach CURSOR_UP 3);
      change (Z.of_nat (len CURSOR_UP)) with 3%Z; lia.
  - apply str_mul_within_reach;
      change (Z.of_nat (len "─")) with 1%Z;
      change (Z.of_nat (len TITLE)) with 28%Z; lia.
Qed.

End Repetition.

(** Splits a goal about [constrain], [py_max] or [py_min] into the cases of
    their comparisons. *)
Ltac split_min_max :=
  unfold constrain;
  repeat match goal with
         | |- context [py_max ?a ?b] =>
             let H := fresh "Hmax" in
             destruct (py_max_cases a b) as [[? H] | [? H]]; rewrite H in *
         | |- context [py_min ?a ?b] =>
             let H := fresh "Hmin" in
             destruct (py_min_cases a b) as [[? H] | [? H]]; rewrite H in *
         end.

Section Clamp.

(** [constrain] is the clamp of its docstring: the number itself between
    the limits, the nearer limit outside them. *)
Lemma constrain_inside (lo x hi : Q) : lo <= x <= hi -> constrain lo x hi == x.
Proof. intros [H1 H2]. split_min_max; lra. Qed.

Lemma constrain_below (lo x hi : Q) : lo <= hi -> x < lo -> constrain lo x hi == lo.
Proof. intros H1 H2. split_min_max; lra. Qed.

Lemma constrain_above (lo x hi : Q) : lo <= hi -> hi < x -> constrain lo x hi == hi.
Proof. intros H1 H2. split_min_max; lra. Qed.

Lemma constrain_bounds (lo x hi : Q) : lo <= hi -> lo <= constrain lo x hi <= hi.
Proof. intros H. split_min_max; lra. Qed.

(** X1.  [constrain] is the clamp of the description and of its own
    docstring: between limits in order it returns the number unchanged when
    the number lies between them, the lower limit when the number is
    below it and the upper limit when the number is above it, so its value
    always lies between the limits; [constrain(1, 5, 10)] is 5,
    [constrain(1, 100, 10)] is 10 and [constrain(1, -100, 10)] is 1. *)
Theorem constrain_is_clamp (lower_limit number upper_limit : Q) :
  lower_limit <= upper_limit ->
  (lower_limit <= number <= upper_limit ->
   constrain lower_limit number upper_limit == number)
  /\ (number < lower_limit -> constrain lower_limit number upper_limit == lower_limit)
  /\ (upper_limit < number -> constrain lower_limit number upper_limit == upper_limit)
  /\ lower_limit <= constrain lower_limit number upper_limit <= upper_limit
  /\ constrain 1 5 10 == 5
  /\ constrain 1 100 10 == 10
  /\ constrain 1 (-100) 10 == 1.
Proof.
  intros Horder.
  split; [apply constrain_inside|].
  split; [now apply constrain_below|].
  split; [now apply constrain_above|].
  split; [now apply constrain_bounds|].
  repeat split.
Qed.

Lemma constrain_is_clamp_witness :
  constrain 4 15 16 == 15 /\ 4 <= constrain 4 15 16 <= 16.
Proof.
  destruct (constrain_is_clamp 4 15 16) as (Hin & _ & _ & Hb & _).
  - discriminate.
  - split; [apply Hin; split; discriminate | exact Hb].
Defined.

End Clamp.

(** * The calculators *)

Section Biking.



End Biking.

Section Fitness.

(** C4, as the code has it.  For a positive age and resting heart rate the
    fitness factor is [min(max(1, x), 1.07)] with
    [x = 1.285 - 0.005 * VO2max]; it always lies between 1 and 1.07; it is
    [x] itself when [x] lies between 1 and 1.07, 1.07 only when [x]
    exceeds 1.07, and 1 when [x] is below 1. *)
Theorem fitness_factor_clamped (age_years resting_heart_bpm : Q) :
  0 < age_years -> 0 < resting_heart_bpm ->
  let vo2_max := 15.3 * (208 - 0.7 * age_years) / resting_heart_bpm in
  let x := 1.285 - 0.005 * vo2_max in
  exists factor,
    car_resp_fitness_factor age_years resting_heart_bpm = inr factor
    /\ factor = py_min (py_max 1 x) 1.07
    /\ 1 <= factor <= 1.07
    /\ (1.07 < x -> factor == 1.07)
    /\ (1 <= x <= 1.07 -> factor == x)
    /\ (x < 1 -> factor == 1).
Proof.
  intros Hage Hrest vo2_max x.
  unfold car_resp_fitness_factor. rewrite (truediv_positive _ _ Hrest).
  fold vo2_max. fold x.
  exists (constrain 1 x 1.07). repeat split.
  - apply constrain_bounds. lra.
  - apply constrain_bounds. lra.
  - intros H. apply constrain_above; lra.
  - intros H. apply constrain_inside; lra.
  - intros H. apply constrain_below; lra.
Qed.

Lemma fitness_factor_clamped_witness :
  exists factor,
    car_resp_fitness_factor 30 60 = inr factor
    /\ 1 <= factor <= 1.07.
Proof.
  destruct (fitness_factor_clamped 30 60) as (factor & H1 & _ & H3 & _);
    [reflexivity | reflexivity |].
  exists factor. split; [exact H1 | exact H3].
Defined.

(** C4, as stated, fails: at age 30 and a resting heart rate of 60 the
    clamped number is 1.046575, above 1, and the factor is that number,
    not 1.07. *)
Lemma fitness_factor_above_one_not_clamped :
  0 < 30 /\ 0 < 60
  /\ 1 < 1.285 - 0.005 * (15.3 * (208 - 0.7 * 30) / 60)
  /\ exists factor,
       car_resp_fitness_factor 30 60 = inr factor
       /\ factor == 1.046575 /\ ~ factor == 1.07.
Proof.
  repeat split.
  eexists. split; [reflexivity|]. split.
  - vm_compute. reflexivity.
  - vm_compute. discriminate.
Qed.

End Fitness.

(** * The bar of calories *)

Section Bar.
Context {machine : Machine}.

(** The remainder of a division by [CALORIES_PER_SQUARE]. *)
Lemma remainder_bounds (calories : Q) :
  0 <= calories - 100 * inject_Z (Qfloor (calories / 100)) < 100.
Proof.
  pose proof (floor_fraction (calories / 100)) as H.
  assert (E : calories / 100 == calories * (1 # 100)) by reflexivity.
  rewrite E in H at 1. lra.
Qed.

Lemma remainder_character_at (k : Z) :
  (0 <= k <= 2)%Z ->
  exists character,
    getitem REMAINDER_CHARACTERS k = inr character
    /\ nth_error REMAINDER_CHARACTERS (Z.to_nat k) = Some character
    /\ character = (if (k =? 0)%Z then "░" else if (k =? 1)%Z then "▌" else "█").
Proof.
  intros H.
  assert (C : k = 0%Z \/ k = 1%Z \/ k = 2%Z) by lia.
  destruct C as [-> | [-> | ->]]; eexists; repeat split; reflexivity.
Qed.

Lemma proportion_of_fifty (remainder : Q) :
  remainder / (CALORIES_PER_SQUARE / 2) == remainder / 50.
Proof.
  assert (E1 : remainder / (CALORIES_PER_SQUARE / 2) == remainder * (2 # 100))
    by reflexivity.
  assert (E2 : remainder / 50 == remainder * (1 # 50)) by reflexivity.
  rewrite E1, E2. lra.
Qed.

(** The index of the last character of the bar. *)
Lemma proportion_index (calories : Q) :
  let remainder := calories - 100 * inject_Z (Qfloor (calories / 100)) in
  (0 <= py_round (remainder / (CALORIES_PER_SQUARE / 2)) <= 2)%Z.
Proof.
  intros remainder. pose proof (remainder_bounds calories) as H. fold remainder in H.
  assert (E : remainder / (CALORIES_PER_SQUARE / 2) == remainder * (2 # 100))
    by reflexivity.
  rewrite (py_round_comp _ _ E). apply py_round_range.
  - change (inject_Z 0) with 0. lra.
  - change (inject_Z 2) with 2. lra.
Qed.

(** Whether the blocks of a bar fit can be told. *)
Lemma bar_fits_dec (calories : Q) : bar_fits calories \/ ~ bar_fits calories.
Proof. unfold bar_fits. cbv zeta. lia. Qed.

(** The blocks, as many as asked for, of a bar that fits. *)
Lemma blocks_within_reach (n : Z) :
  (- maxsize - 1 <= n <= maxsize)%Z /\ (n <= 1 \/ n <= memory)%Z ->
  str_mul "█" n = inr (repeat_string "█" (Z.to_nat n)).
Proof.
  intros [[Hlo Hhi] Hmem]. unfold str_mul.
  destruct (Z.ltb_spec n (- maxsize - 1)) as [H1|_]; [lia|].
  destruct (Z.ltb_spec maxsize n) as [H2|_]; [lia|]. cbn [orb].
  destruct (Z.leb_spec n 0) as [H3|H3].
  { replace (Z.to_nat n) with O by lia. reflexivity. }
  destruct (Z.eqb_spec n 1) as [-> | H4]; [reflexivity|].
  change (Z.of_nat (len "█")) with 1%Z.
  destruct (Z.ltb_spec (maxsize / n) 1) as [H5|_].
  { assert (1 <= maxsize / n)%Z by (apply Z.div_le_lower_bound; lia). lia. }
  change (1 =? 0)%Z with false. cbn [orb].
  destruct (Z.leb_spec (1 * n) memory) as [_|H6]; [reflexivity | lia].
Qed.

(** No blocks at all for a bar that does not fit: the number is no index,
    or the string is too long for the machine. *)
Lemma blocks_beyond_reach (n : Z) :
  ~ ((- maxsize - 1 <= n <= maxsize)%Z /\ (n <= 1 \/ n <= memory)%Z) ->
  exists e, (e = OverflowError \/ e = MemoryError) /\ str_mul "█" n = inl e.
Proof.
  intros Hnot. unfold str_mul.
  destruct (Z.ltb_spec n (- maxsize - 1)) as [H1|H1]; [eauto|].
  destruct (Z.ltb_spec maxsize n) as [H2|H2]; [eauto|]. cbn [orb].
  destruct (Z.leb_spec n 0) as [H3|H3]; [lia|].
  destruct (Z.eqb_spec n 1) as [-> | H4]; [lia|].
  destruct (Z.ltb_spec (maxsize / n) (Z.of_nat (len "█"))) as [H5|_]; [eauto|].
  change (Z.of_nat (len "█")) with 1%Z.
  change (1 =? 0)%Z with false. cbn [orb].
  destruct (Z.leb_spec (1 * n) memory) as [H6|_]; [lia | eauto].
Qed.

(** [n] copies of a text, in the words of the standard library. *)
Lemma repeat_string_concat (s : string) (n : nat) :
  repeat_string s n = String.concat EmptyString (List.repeat s n).
Proof.
  induction n as [|n IH]; [reflexivity|].
  cbn [repeat_string List.repeat]. rewrite IH.
  destruct n as [|n]; cbn; [|reflexivity].
  induction s as [|c s IHs]; cbn; [reflexivity | now rewrite IHs].
Qed.

(** What [print_calories_bar] writes when the blocks fit. *)
Lemma print_calories_bar_writes (label : string) (calories : Q) (w : world) :
  bar_fits calories ->
  let squares := Qfloor (calories / 100) in
  let remainder := calories - 100 * inject_Z squares in
  let k := py_round (remainder / (CALORIES_PER_SQUARE / 2)) in
  exists character,
    getitem REMAINDER_CHARACTERS k = inr character
    /\ nth_error REMAINDER_CHARACTERS (Z.to_nat k) = Some character
    /\ character = (if (k =? 0)%Z then "░" else if (k =? 1)%Z then "▌" else "█")
    /\ Final.print_calories_bar label calories w
       = Ok tt (World (stdin w)
                  (stdout w ++ [print_event
                                  [VStr (ljust label 15
                                         ++ repeat_string "█" (Z.to_nat squares)
                                         ++ character);
                                   VInt (py_round calories)]])%list)
    /\ Main.print_calories_bar label calories w
       = Ok tt (World (stdin w)
                  (stdout w ++ [print_event
                                  [VStr (ljust label 13
                                         ++ repeat_string "█" (Z.to_nat squares)
                                         ++ character);
                                   VInt (py_round calories)]])%list).
Proof.
  intros Hfits squares remainder k.
  destruct (remainder_character_at k (proportion_index calories))
    as (character & Hget & Hnth & Hchar).
  exists character. split; [exact Hget|]. split; [exact Hnth|]. split; [exact Hchar|].
  apply blocks_within_reach in Hfits. fold squares in Hfits.
  split.
  - unfold Final.print_calories_bar, bind, lift, floordiv, mod_, truediv.
    change (Qeq_bool CALORIES_PER_SQUARE 0) with false.
    change (Qeq_bool (CALORIES_PER_SQUARE / 2) 0) with false.
    cbn [ret]. rewrite py_int_integer.
    change (Qfloor (calories / CALORIES_PER_SQUARE)) with squares.
    rewrite Hfits. cbn [ret].
    change (calories - CALORIES_PER_SQUARE * inject_Z squares) with remainder.
    fold k. rewrite Hget. reflexivity.
  - unfold Main.print_calories_bar, bind, lift, floordiv, mod_, truediv.
    change (Qeq_bool CALORIES_PER_SQUARE 0) with false.
    change (Qeq_bool (CALORIES_PER_SQUARE / 2) 0) with false.
    cbn [ret]. rewrite py_int_integer.
    change (Qfloor (calories / CALORIES_PER_SQUARE)) with squares.
    rewrite Hfits. cbn [ret].
    change (calories - CALORIES_PER_SQUARE * inject_Z squares) with remainder.
    fold k. rewrite Hget. reflexivity.
Qed.

(** What happens when they do not: the repetition fails, before anything
    is printed. *)
Lemma print_calories_bar_raises (label : string) (calories : Q) (w : world) :
  ~ bar_fits calories ->
  exists e,
    (e = OverflowError \/ e = MemoryError)
    /\ Final.print_calories_bar label calories w = Raise e w
    /\ Main.print_calories_bar label calories w = Raise e w.
Proof.
  intros Hnot. apply blocks_beyond_reach in Hnot. destruct Hnot as (e & He & Hmul).
  exists e. split; [exact He|].
  split.
  - unfold Final.print_calories_bar, bind, lift, floordiv.
    change (Qeq_bool CALORIES_PER_SQUARE 0) with false.
    cbn [ret]. rewrite py_int_integer.
    change (Qfloor (calories / CALORIES_PER_SQUARE)) with (Qfloor (calories / 100)).
    rewrite Hmul. reflexivity.
  - unfold Main.print_calories_bar, bind, lift, floordiv.
    change (Qeq_bool CALORIES_PER_SQUARE 0) with false.
    cbn [ret]. rewrite py_int_integer.
    change (Qfloor (calories / CALORIES_PER_SQUARE)) with (Qfloor (calories / 100)).
    rewrite Hmul. reflexivity.
Qed.

(** C10.  The remainder of the calories by 100 lies in [0, 100), so the
    index rounded from its proportion of 50 is 0, 1 or 2 and the lookup in
    the three remainder characters succeeds.  In both variants the bar is
    printed whenever its blocks are within the machine's reach, and where
    they are not the exception is that of the repetition, never one of the
    lookup. *)
Theorem remainder_character_index_in_bounds (calories : Q) :
  0 <= calories ->
  exists remainder proportion character,
    mod_ calories CALORIES_PER_SQUARE = inr remainder
    /\ 0 <= remainder < 100
    /\ truediv remainder (CALORIES_PER_SQUARE / 2) = inr proportion
    /\ proportion == remainder / 50
    /\ (0 <= py_round proportion <= 2)%Z
    /\ (Z.to_nat (py_round proportion) < List.length REMAINDER_CHARACTERS)%nat
    /\ getitem REMAINDER_CHARACTERS (py_round proportion) = inr character
    /\ forall label w,
         (bar_fits calories ->
          (exists w', Final.print_calories_bar label calories w = Ok tt w')
          /\ (exists w', Main.print_calories_bar label calories w = Ok tt w'))
         /\ (forall e w',
                Final.print_calories_bar label calories w = Raise e w'
                \/ Main.print_calories_bar label calories w = Raise e w' ->
                (e = OverflowError \/ e = MemoryError) /\ ~ bar_fits calories).
Proof.
  intros _.
  pose proof (remainder_bounds calories) as Hrem.
  pose proof (proportion_index calories) as Hidx. cbv zeta in Hidx.
  destruct (remainder_character_at _ Hidx) as (character & Hget & Hnth & _).
  exists (calories - 100 * inject_Z (Qfloor (calories / 100))).
  exists ((calories - 100 * inject_Z (Qfloor (calories / 100))) / (CALORIES_PER_SQUARE / 2)).
  exists character.
  split; [reflexivity|]. split; [exact Hrem|]. split; [reflexivity|].
  split; [apply proportion_of_fifty|]. split; [exact Hidx|].
  split; [apply nth_error_Some; congruence|]. split; [exact Hget|].
  intros label w. split.
  - intros Hfits.
    destruct (print_calories_bar_writes label calories w Hfits)
      as (c & _ & _ & _ & HF & HM).
    split; eexists; [exact HF | exact HM].
  - intros e w' H. destruct (bar_fits_dec calories) as [Hfits|Hnot].
    + destruct (print_calories_bar_writes label calories w Hfits)
        as (c & _ & _ & _ & HF & HM).
      rewrite HF, HM in H. destruct H; discriminate.
    + destruct (print_calories_bar_raises label calories w Hnot) as (e' & He & HF & HM).
      rewrite HF, HM in H. split; [|exact Hnot].
      destruct H as [H|H]; inversion H; subst; exact He.
Qed.


End Bar.

Section BarExample.

Lemma remainder_character_index_in_bounds_witness :
  exists remainder proportion character,
    mod_ 250 CALORIES_PER_SQUARE = inr remainder
    /\ 0 <= remainder < 100
    /\ truediv remainder (CALORIES_PER_SQUARE / 2) = inr proportion
    /\ proportion == remainder / 50
    /\ (0 <= py_round proportion <= 2)%Z
    /\ (Z.to_nat (py_round proportion) < List.length REMAINDER_CHARACTERS)%nat
    /\ getitem REMAINDER_CHARACTERS (py_round proportion) = inr character
    /\ (exists w',
          Final.print_calories_bar (machine := machine64) "1. biking" 250
            (World [] []) = Ok tt w')
    /\ (exists w',
          Main.print_calories_bar (machine := machine64) "1. biking" 250
            (World [] []) = Ok tt w').
Proof.
  destruct (remainder_character_index_in_bounds (machine := machine64) 250)
    as (remainder & proportion & character & H1 & H2 & H3 & H4 & H5 & H6 & H7 & H);
    [discriminate|].
  exists remainder, proportion, character.
  repeat (split; [assumption|]).
  apply (H "1. biking" (World [] [])). unfold bar_fits. cbn. lia.
Defined.


End BarExample.

(** * The readers *)

Section Loop.
Context {A : Type} (prompt : string) (body : string -> list event * option A).

(** The loop is what its name says: [input], the body, and the loop again
    unless the body has decided. *)
Lemma input_loop_unfold (w : world) :
  input_loop prompt body w
  = bind (input prompt) (fun line =>
    bind (emit (fst (body line))) (fun _ =>
    match snd (body line) with
    | Some a => ret a
    | None => input_loop prompt body
    end)) w.
Proof.
  unfold input_loop, bind, input, emit.
  destruct w as [[|line rest] out]; cbn; [reflexivity|].
  rewrite <- app_assoc. cbn. now destruct (snd (body line)).
Qed.

(** A round that decides ends the loop; the line is consumed. *)
Lemma input_loop_accepts (line : string) (rest : list string) (out : list event) (a : A) :
  snd (body line) = Some a ->
  input_loop prompt body (World (line :: rest) out)
  = Ok a (World rest (out ++ Prompt prompt :: fst (body line))%list).
Proof. intros H. unfold input_loop. cbn. rewrite H. reflexivity. Qed.

(** A round that does not decide is followed by the loop itself, on the
    lines that remain: the reader prompts again. *)
Lemma input_loop_rejects (line : string) (rest : list string) (out : list event) :
  snd (body line) = None ->
  input_loop prompt body (World (line :: rest) out)
  = input_loop prompt body (World rest (out ++ Prompt prompt :: fst (body line))%list).
Proof. intros H. unfold input_loop. cbn. rewrite H. reflexivity. Qed.

(** The loop ends on the first line its body decides on; the lines before
    it were all turned down, and only the lines after it remain. *)
Lemma read_until_ok (lines : list string) (out : list event) (a : A) (w' : world) :
  read_until prompt body lines out = Ok a w' ->
  exists skipped line,
    lines = (skipped ++ line :: stdin w')%list
    /\ Forall (fun l => snd (body l) = None) skipped
    /\ snd (body line) = Some a.
Proof.
  revert out. induction lines as [|l lines IH]; intros out H; cbn in H.
  - discriminate.
  - destruct (snd (body l)) as [a'|] eqn:E.
    + inversion H; subst. exists [], l. cbn. auto.
    + destruct (IH _ H) as (skipped & line & -> & Hs & Ha).
      exists (l :: skipped), line. cbn. auto.
Qed.

Lemma input_loop_ok (w w' : world) (a : A) :
  input_loop prompt body w = Ok a w' ->
  exists skipped line,
    stdin w = (skipped ++ line :: stdin w')%list
    /\ Forall (fun l => snd (body l) = None) skipped
    /\ snd (body line) = Some a.
Proof. apply read_until_ok. Qed.

(** The loop consumes at least one line when it ends well. *)
Lemma input_loop_consumes (w w' : world) (a : A) :
  input_loop prompt body w = Ok a w' ->
  (List.length (stdin w') < List.length (stdin w))%nat.
Proof.
  intros H. destruct (input_loop_ok _ _ _ H) as (skipped & line & E & _).
  rewrite E, length_app. cbn. lia.
Qed.


(** The loop only writes: what was on the console stays there. *)
Lemma read_until_output (lines : list string) (out : list event) :
  exists more,
    stdout (match read_until prompt body lines out with
            | Ok _ w' => w'
            | Raise _ w' => w'
            end) = (out ++ Prompt prompt :: more)%list.
Proof.
  revert out. induction lines as [|l lines IH]; intros out; cbn.
  - exists []. reflexivity.
  - destruct (snd (body l)) as [a'|] eqn:E; cbn.
    + eexists. reflexivity.
    + destruct (IH (out ++ Prompt prompt :: fst (body l))%list) as (more & H).
      rewrite H. rewrite <- app_assoc. cbn. eexists. reflexivity.
Qed.

End Loop.

Section PositiveNumber.
Context {parser : FloatParser} {unicode : Text} {machine : Machine}.

(** The reader of either variant returns positive numbers only. *)
Lemma final_get_positive_number_positive (prompt : string) (w w' : world) (number : Q) :
  Final.get_positive_number prompt w = Ok number w' -> 0 < number.
Proof.
  intros H. apply input_loop_ok in H. destruct H as (skipped & line & _ & _ & H).
  unfold Final.positive_number_round in H.
  destruct (py_float (lower (strip line))) as [x|]; [|discriminate].
  destruct (Qlt_bool 0 x) eqn:E; [|discriminate].
  cbn in H. inversion H; subst. now apply Qlt_bool_iff.
Qed.

Lemma main_get_positive_number_positive (prompt : string) (w w' : world) (number : Q) :
  Main.get_positive_number prompt w = Ok number w' -> 0 < number.
Proof.
  intros H. apply input_loop_ok in H. destruct H as (skipped & line & _ & _ & H).
  unfold Main.positive_number_round in H.
  destruct (py_float (strip line)) as [x|]; [|discriminate].
  destruct (Qlt_bool 0 x) eqn:E; [|discriminate].
  cbn in H. inversion H; subst. now apply Qlt_bool_iff.
Qed.

(** Decides the comparison of a round with zero, both ways. *)
Ltac compare_with_zero x :=
  let E := fresh "E" in
  destruct (Qlt_bool 0 x) eqn:E;
  [apply Qlt_bool_iff in E | apply Qlt_bool_false_iff in E].

(** Settles the six parts of the statement below for one variant, from the
    equation [Hround] of its round. *)
Ltac settle_round Hround :=
  split; [|split; [|split; [|split; [|split]]]];
  [ intros number; rewrite Hround; split;
    [ destruct (py_float _) as [x|]; [|discriminate];
      compare_with_zero x; [|discriminate];
      intros H; inversion H; subst; auto
    | intros [-> Hpos]; apply Qlt_bool_iff in Hpos; now rewrite Hpos ]
  | rewrite Hround; split;
    [ destruct (py_float _) as [x|]; [|reflexivity];
      compare_with_zero x; discriminate
    | intros ->; reflexivity ]
  | rewrite Hround; split;
    [ destruct (py_float _) as [x|]; [|discriminate];
      compare_with_zero x; [discriminate|]; intros _; now exists x
    | intros (x & -> & Hle); apply Qlt_bool_false_iff in Hle; now rewrite Hle ]
  | intros number Hp Hpos; apply Qlt_bool_iff in Hpos;
    rewrite input_loop_accepts with (a := number);
    rewrite Hround, Hp, Hpos; reflexivity
  | intros Hp; rewrite input_loop_rejects; rewrite Hround, Hp; reflexivity
  | intros number Hp Hle; apply Qlt_bool_false_iff in Hle;
    rewrite input_loop_rejects; rewrite Hround, Hp, Hle; reflexivity ].

(** C5.  The reader of a positive number, on its next line of input
    ([float] taken to ignore letter case, as Python's does):
    - takes the line and returns its number exactly when the trimmed line
      parses as a number greater than zero;
    - says that the text is not a number exactly when the trimmed line
      does not parse;
    - says that the number is not greater than zero exactly when it parses
      as a number that is at most zero;
    and after either message it goes on as the same reader on the lines
    that remain: it prompts again and does not end the program. *)
Theorem get_positive_number_reads (prompt line : string) (rest : list string)
    (out : list event) :
  (forall s, py_float (lower s) = py_float s) ->
  let text := strip line in
  let w := World (line :: rest) out in
  let cleared := Print [VStr CLEAR_REST_OF_SCREEN] " " EmptyString in
  let cursor_up := String "027" "[A" in
  let up (times : string) := Print [VStr times] " " EmptyString in
  let final_prompt := Prompt (ljust prompt 30 ++ " | " ++ CLEAR_REST_OF_LINE) in
  let final_not_a_number :=
    [Print [VStr ("'" ++ lower text ++ "' is not a number. Please try again.")] " " NL;
     Print [VStr "(You must use digits, not words, as in '10', not 'ten'.)"] " " NL;
     up (cursor_up ++ cursor_up ++ cursor_up)] in
  let final_not_positive :=
    [Print [VStr (lower text ++ " is not greater than zero. Please try again.")] " " NL;
     up (cursor_up ++ cursor_up)] in
  let main_prompt := Prompt (ljust prompt 28 ++ " | " ++ CLEAR_REST_OF_LINE) in
  let main_not_a_number :=
    [Print [VStr ("'" ++ text ++ "' is not a number. Please try again.")] " " NL;
     up (cursor_up ++ cursor_up)] in
  let main_not_positive :=
    [Print [VStr "The number must be positive. Please try again."] " " NL;
     up (cursor_up ++ cursor_up)] in
  ((forall number,
       Final.positive_number_round line = ([cleared], Some number)
       <-> py_float text = Some number /\ 0 < number)
   /\ (Final.positive_number_round line = (cleared :: final_not_a_number, None)
       <-> py_float text = None)
   /\ (Final.positive_number_round line = (cleared :: final_not_positive, None)
       <-> exists number, py_float text = Some number /\ number <= 0)
   /\ (forall number,
         py_float text = Some number -> 0 < number ->
         Final.get_positive_number prompt w
         = Ok number (World rest (out ++ [final_prompt; cleared])%list))
   /\ (py_float text = None ->
       Final.get_positive_number prompt w
       = Final.get_positive_number prompt
           (World rest (out ++ final_prompt :: cleared :: final_not_a_number)%list))
   /\ (forall number,
         py_float text = Some number -> number <= 0 ->
         Final.get_positive_number prompt w
         = Final.get_positive_number prompt
             (World rest (out ++ final_prompt :: cleared :: final_not_positive)%list)))
  /\
  ((forall number,
       Main.positive_number_round line = ([cleared], Some number)
       <-> py_float text = Some number /\ 0 < number)
   /\ (Main.positive_number_round line = (cleared :: main_not_a_number, None)
       <-> py_float text = None)
   /\ (Main.positive_number_round line = (cleared :: main_not_positive, None)
       <-> exists number, py_float text = Some number /\ number <= 0)
   /\ (forall number,
         py_float text = Some number -> 0 < number ->
         Main.get_positive_number prompt w
         = Ok number (World rest (out ++ [main_prompt; cleared])%list))
   /\ (py_float text = None ->
       Main.get_positive_number prompt w
       = Main.get_positive_number prompt
           (World rest (out ++ main_prompt :: cleared :: main_not_a_number)%list))
   /\ (forall number,
         py_float text = Some number -> number <= 0 ->
         Main.get_positive_number prompt w
         = Main.get_positive_number prompt
             (World rest (out ++ main_prompt :: cleared :: main_not_positive)%list))).
Proof.
  intros Hcase text w cleared cursor_up up final_prompt final_not_a_number final_not_positive
    main_prompt main_not_a_number main_not_positive.
  split.
  - assert (Hround :
      Final.positive_number_round line
      = match py_float text with
        | Some number =>
            if Qlt_bool 0 number then ([cleared], Some number)
            else (cleared :: final_not_positive, None)
        | None => (cleared :: final_not_a_number, None)
        end).
    { unfold Final.positive_number_round. fold text. rewrite Hcase. reflexivity. }
    unfold Final.get_positive_number. subst w final_not_a_number final_not_positive.
    settle_round Hround.
  - assert (Hround :
      Main.positive_number_round line
      = match py_float text with
        | Some number =>
            if Qlt_bool 0 number then ([cleared], Some number)
            else (cleared :: main_not_positive, None)
        | None => (cleared :: main_not_a_number, None)
        end) by reflexivity.
    unfold Main.get_positive_number. subst w main_not_a_number main_not_positive.
    settle_round Hround.
Qed.

End PositiveNumber.

Section DecimalReader.

Lemma lower_char_idempotent (c : ascii) :
  PlainText.lower_char (PlainText.lower_char c) = PlainText.lower_char c.
Proof. destruct c as [[] [] [] [] [] [] [] []]; reflexivity. Qed.

Lemma lower_idempotent (s : string) :
  PlainText.lower (PlainText.lower s) = PlainText.lower s.
Proof.
  induction s as [|c s IH]; cbn; [reflexivity|].
  now rewrite lower_char_idempotent, IH.
Qed.

(** The reader of decimal numerals ignores letter case. *)
Lemma float_of_string_lower (s : string) :
  Decimal.float_of_string (PlainText.lower s) = Decimal.float_of_string s.
Proof. unfold Decimal.float_of_string. now rewrite lower_idempotent. Qed.

Lemma get_positive_number_reads_witness :
  Final.get_positive_number (parser := Decimal.parser) (unicode := PlainText.text)
    "Weight (in pounds)?" (World ["150"; "running"] [])
  = Ok 150
      (World ["running"]
         [Prompt (ljust "Weight (in pounds)?" 30 ++ " | " ++ CLEAR_REST_OF_LINE);
          Print [VStr CLEAR_REST_OF_SCREEN] " " EmptyString]).
Proof.
  destruct (get_positive_number_reads (parser := Decimal.parser) (unicode := PlainText.text)
              "Weight (in pounds)?" "150" ["running"] [] float_of_string_lower)
    as [(_ & _ & _ & H & _) _].
  apply H; reflexivity.
Defined.

End DecimalReader.

Section Options.
Context {unicode : Text}.

Lemma list_index_nth (x : string) (options : list string) (i : nat) :
  list_index x options = Some i -> nth_error options i = Some x.
Proof.
  revert i. induction options as [|o options IH]; cbn; [discriminate|].
  intros i. destruct (String.eqb_spec o x) as [-> | _].
  - intros [= <-]. reflexivity.
  - destruct (list_index x options) as [j|]; cbn; [|discriminate].
    intros [= <-]. cbn. now apply IH.
Qed.

(** The reader of an option, in either variant, returns the position of
    the text it accepted, and has consumed at least one line. *)
Lemma final_get_index_of_one_of_ok (prompt : string) (options : list string)
    (w w' : world) (i : nat) :
  Final.get_index_of_one_of prompt options w = Ok i w' ->
  (exists option, nth_error options i = Some option)
  /\ (List.length (stdin w') < List.length (stdin w))%nat.
Proof.
  intros H. split; [|exact (input_loop_consumes _ _ _ _ _ H)].
  apply input_loop_ok in H. destruct H as (skipped & line & _ & _ & H).
  unfold Final.index_round in H.
  destruct (lower (strip line) =? "options"); [discriminate|].
  destruct (list_index (lower (strip line)) options) as [j|] eqn:E; [|discriminate].
  cbn in H. inversion H; subst. eexists. apply list_index_nth, E.
Qed.

Lemma main_get_index_of_one_of_ok (prompt : string) (options : list string)
    (w w' : world) (i : nat) :
  Main.get_index_of_one_of prompt options w = Ok i w' ->
  (exists option, nth_error options i = Some option)
  /\ (List.length (stdin w') < List.length (stdin w))%nat.
Proof.
  intros H. split; [|exact (input_loop_consumes _ _ _ _ _ H)].
  apply input_loop_ok in H. destruct H as (skipped & line & _ & _ & H).
  unfold Main.index_round in H.
  destruct (list_index (lower (strip line)) options) as [j|] eqn:E; [|discriminate].
  cbn in H. inversion H; subst. eexists. apply list_index_nth, E.
Qed.

End Options.

(** Runs through the positions of a list given in full: one goal for each
    position, and none beyond the end. *)
Ltac each_position i H :=
  lazymatch type of H with
  | nth_error [] _ = Some _ => destruct i; discriminate H
  | nth_error (_ :: _) _ = Some _ =>
      destruct i as [|i]; [cbn in H | cbn in H; each_position i H]
  end.

Section Swimming.
Context {unicode : Text}.

(** Every style has its MET, at the same position of the other list. *)
Lemma style_met_at (i : nat) (style : string) :
  nth_error SWIMMING_STYLES i = Some style ->
  exists met,
    nth_error SWIMMING_STYLE_METS i = Some met
    /\ getitem SWIMMING_STYLE_METS (Z.of_nat i) = inr met
    /\ 0 < met.
Proof.
  intros H. unfold SWIMMING_STYLES in H.
  each_position i H; eexists; repeat split; reflexivity.
Qed.

(** C3.  For a positive weight (kg) and duration (hr) the swimming
    calculator returns [duration * MET * weight], the MET being the one at
    the position of the chosen style: the ten styles and the ten constants
    9.5, 4.8, 10.3, 5.3, 13.8, 10.0, 8.3, 7.0, 9.8, 3.5 correspond by
    position, and no style is listed twice.  For 70 kg, half an hour and
    the butterfly (13.8) the value is 483, in exact arithmetic and in IEEE
    binary64 alike. *)
Theorem calc_swimming_calories (weight_kg duration_hours : Q) :
  0 < weight_kg -> 0 < duration_hours ->
  let mets := [9.5; 4.8; 10.3; 5.3; 13.8; 10.0; 8.3; 7.0; 9.8; 3.5] in
  List.length SWIMMING_STYLES = 10%nat
  /\ NoDup SWIMMING_STYLES
  /\ SWIMMING_STYLE_METS = mets
  /\ (forall w0 w1 i,
         Final.get_index_of_one_of "Swimming style?" SWIMMING_STYLES w0 = Ok i w1 ->
         exists met,
           nth_error mets i = Some met
           /\ Final.calc_swimming weight_kg duration_hours w0
              = Ok (duration_hours * met * weight_kg) w1)
  /\ (forall w0 w1 i,
         Main.get_index_of_one_of "Swimming style?" SWIMMING_STYLES w0 = Ok i w1 ->
         exists met,
           nth_error mets i = Some met
           /\ Main.calc_swimming weight_kg duration_hours w0
              = Ok (duration_hours * met * weight_kg) w1)
  /\ (forall i style met line rest out,
         nth_error SWIMMING_STYLES i = Some style ->
         nth_error mets i = Some met ->
         lower (strip line) = style ->
         (exists out',
             Final.calc_swimming weight_kg duration_hours (World (line :: rest) out)
             = Ok (duration_hours * met * weight_kg) (World rest out'))
         /\ (exists out',
                Main.calc_swimming weight_kg duration_hours (World (line :: rest) out)
                = Ok (duration_hours * met * weight_kg) (World rest out')))
  /\ (weight_kg = 70 -> duration_hours = 0.5 ->
      nth_error SWIMMING_STYLES 4 = Some "butterfly"
      /\ nth_error mets 4 = Some 13.8
      /\ duration_hours * 13.8 * weight_kg == 483)
  /\ Binary64.value Binary64.swimming_sample = Some 483.
Proof.
  intros Hw Ht mets.
  split; [reflexivity|].
  split.
  { unfold SWIMMING_STYLES.
    repeat (constructor; [cbn; intuition discriminate|]). constructor. }
  split; [reflexivity|].
  split.
  { intros w0 w1 i H.
    destruct (final_get_index_of_one_of_ok _ _ _ _ _ H) as [[style Hs] _].
    destruct (style_met_at i style Hs) as (met & Hnth & Hget & _).
    exists met. split; [exact Hnth|].
    unfold Final.calc_swimming, bind. rewrite H. unfold lift. rewrite Hget. reflexivity. }
  split.
  { intros w0 w1 i H.
    destruct (main_get_index_of_one_of_ok _ _ _ _ _ H) as [[style Hs] _].
    destruct (style_met_at i style Hs) as (met & Hnth & Hget & _).
    exists met. split; [exact Hnth|].
    unfold Main.calc_swimming, bind. rewrite H. unfold lift. rewrite Hget. reflexivity. }
  split.
  { intros i style met line rest out Hs Hm Hline.
    destruct (style_met_at i style Hs) as (met' & Hnth & Hget & _).
    assert (met' = met) by (unfold mets in Hm; change SWIMMING_STYLE_METS with mets in Hnth;
                            unfold mets in Hnth; congruence).
    subst met'.
    assert (Hidx : list_index style SWIMMING_STYLES = Some i
                   /\ (style =? "options") = false).
    { unfold SWIMMING_STYLES in Hs.
      each_position i Hs; inversion Hs; subst style; split; reflexivity. }
    destruct Hidx as [Hidx Hopt].
    split.
    - unfold Final.calc_swimming, Final.get_index_of_one_of, bind.
      rewrite input_loop_accepts with (a := i).
      + unfold lift. rewrite Hget. eexists. reflexivity.
      + unfold Final.index_round. rewrite Hline, Hopt, Hidx. reflexivity.
    - unfold Main.calc_swimming, Main.get_index_of_one_of, bind.
      rewrite input_loop_accepts with (a := i).
      + unfold lift. rewrite Hget. eexists. reflexivity.
      + unfold Main.index_round. rewrite Hline, Hidx. reflexivity. }
  split; [|reflexivity].
  intros -> ->. repeat split.
Qed.

End Swimming.

Section SwimmingExample.

Lemma calc_swimming_calories_witness :
  exists out',
    Final.calc_swimming (unicode := PlainText.text) 70 0.5
      (World ["Butterfly "; "exit"] [])
    = Ok (0.5 * 13.8 * 70) (World ["exit"] out').
Proof.
  destruct (calc_swimming_calories (unicode := PlainText.text) 70 0.5)
    as (_ & _ & _ & _ & _ & H & _); [reflexivity | reflexivity |].
  apply (H 4%nat "butterfly" 13.8 "Butterfly " ["exit"] []); reflexivity.
Defined.

End SwimmingExample.

Section Running.
Context {parser : FloatParser} {unicode : Text} {machine : Machine}.

(** What the question about the treadmill makes of an answer. *)
Lemma treadmill_answer (line : string) (rest : list string) (out : list event) :
  let answer := lower (strip line) in
  let w := World (line :: rest) out in
  ((answer = "yes" \/ answer = "y") ->
   exists out', Final.get_yes_or_no "On a treadmill?" (Some false) w
                = Ok true (World rest out'))
  /\ ((answer = "no" \/ answer = "n" \/ answer = EmptyString) ->
      exists out', Final.get_yes_or_no "On a treadmill?" (Some false) w
                   = Ok false (World rest out')).
Proof.
  intros answer w. subst w. unfold Final.get_yes_or_no. split; intros H.
  - eexists. apply input_loop_accepts.
    unfold Final.yes_or_no_round. fold answer.
    destruct H as [-> | ->]; reflexivity.
  - eexists. apply input_loop_accepts.
    unfold Final.yes_or_no_round. fold answer.
    destruct H as [-> | [-> | ->]]; reflexivity.
Qed.

(** C2.  For a positive weight (kg) and distance (km), once the prompts
    for the age and the resting heart rate (and, in [Final.py], the
    treadmill) are answered, the answers are positive and the running
    calculator returns
    [(0.95 * weight + air resistance) * distance * fitness factor]:
    the air resistance is 0.84 off the treadmill and 0 on it in
    [Final.py], where an answer of no, or an empty answer (the default is
    no), is off and an answer of yes is on; it is always 0.84 in
    [Main.py]. *)
Theorem calc_running_calories (weight_kg distance_km : Q) :
  0 < weight_kg -> 0 < distance_km ->
  let fitness age_years resting_heart_bpm :=
    constrain 1 (1.285 - 0.005 * (15.3 * (208 - 0.7 * age_years) / resting_heart_bpm)) 1.07 in
  (forall w0 w1 w2 w3 age_years resting_heart_bpm on_a_treadmill,
      Final.get_positive_number "Age (in years)?" w0 = Ok age_years w1 ->
      Final.get_positive_number "Resting heart rate (in BPM)?" w1
      = Ok resting_heart_bpm w2 ->
      Final.get_yes_or_no "On a treadmill?" (Some false) w2 = Ok on_a_treadmill w3 ->
      let air_resistance := if on_a_treadmill then 0 else 0.84 in
      0 < age_years /\ 0 < resting_heart_bpm
      /\ Final.calc_running weight_kg distance_km w0
         = Ok ((0.95 * weight_kg + air_resistance) * distance_km
               * fitness age_years resting_heart_bpm) w3)
  /\ (forall line rest out,
         let answer := lower (strip line) in
         let w := World (line :: rest) out in
         ((answer = "yes" \/ answer = "y") ->
          exists out', Final.get_yes_or_no "On a treadmill?" (Some false) w
                       = Ok true (World rest out'))
         /\ ((answer = "no" \/ answer = "n" \/ answer = EmptyString) ->
             exists out', Final.get_yes_or_no "On a treadmill?" (Some false) w
                          = Ok false (World rest out')))
  /\ (forall w0 w1 w2 age_years resting_heart_bpm,
         Main.get_positive_number "Age (years)?" w0 = Ok age_years w1 ->
         Main.get_positive_number "Resting heart rate (BPM)?" w1
         = Ok resting_heart_bpm w2 ->
         0 < age_years /\ 0 < resting_heart_bpm
         /\ Main.calc_running weight_kg distance_km w0
            = Ok ((0.95 * weight_kg + 0.84) * distance_km
                  * fitness age_years resting_heart_bpm) w2).
Proof.
  intros Hw Hd fitness. split; [|split].
  - intros w0 w1 w2 w3 age rest treadmill Hage Hrest Htread air.
    pose proof (final_get_positive_number_positive _ _ _ _ Hage) as Hage_pos.
    pose proof (final_get_positive_number_positive _ _ _ _ Hrest) as Hrest_pos.
    split; [exact Hage_pos|]. split; [exact Hrest_pos|].
    unfold Final.calc_running, bind. rewrite Hage, Hrest, Htread.
    unfold lift, car_resp_fitness_factor. rewrite (truediv_positive _ _ Hrest_pos).
    subst air. destruct treadmill; reflexivity.
  - intros line rest out. apply treadmill_answer.
  - intros w0 w1 w2 age rest Hage Hrest.
    pose proof (main_get_positive_number_positive _ _ _ _ Hage) as Hage_pos.
    pose proof (main_get_positive_number_positive _ _ _ _ Hrest) as Hrest_pos.
    split; [exact Hage_pos|]. split; [exact Hrest_pos|].
    unfold Main.calc_running, bind. rewrite Hage, Hrest.
    unfold lift, car_resp_fitness_factor. rewrite (truediv_positive _ _ Hrest_pos).
    reflexivity.
Qed.

End Running.

Section RunningExample.

(** 70 kg over 10 km at the age of 30, with a resting heart rate of 60 and
    the default answer to the treadmill question: about 704.8 calories. *)
Lemma calc_running_calories_witness :
  exists calories w3,
    Final.calc_running (parser := Decimal.parser) (unicode := PlainText.text) 70 10
      (World ["30"; "60"; " "] [])
    = Ok calories w3
    /\ stdin w3 = []
    /\ calories
       = (0.95 * 70 + 0.84) * 10
         * constrain 1 (1.285 - 0.005 * (15.3 * (208 - 0.7 * 30) / 60)) 1.07
    /\ 704.7 < calories < 704.8.
Proof.
  destruct (calc_running_calories (parser := Decimal.parser)
              (unicode := PlainText.text) 70 10) as (H & _ & _);
    [reflexivity | reflexivity |].
  pose proof (fun w1 w2 w3 => H (World ["30"; "60"; " "] []) w1 w2 w3 30 60 false) as H'.
  edestruct H' as (_ & _ & Hc); [reflexivity | reflexivity | reflexivity |].
  eexists. eexists. split; [exact Hc|]. repeat split.
Defined.

End RunningExample.

(** * The console during the session *)

Section Console.

Lemma advances_refl (w : world) : advances w w.
Proof.
  split.
  - exists []. reflexivity.
  - exists []. split; [now rewrite app_nil_r | constructor].
Qed.

Lemma advances_trans (w1 w2 w3 : world) :
  advances w1 w2 -> advances w2 w3 -> advances w1 w3.
Proof.
  intros [[c1 Hc1] (o1 & Ho1 & Hq1)] [[c2 Hc2] (o2 & Ho2 & Hq2)]. split.
  - exists (c1 ++ c2)%list. rewrite Hc1, Hc2. now rewrite app_assoc.
  - exists (o1 ++ o2)%list. split.
    + rewrite Ho2, Ho1. now rewrite app_assoc.
    + apply Forall_app. auto.
Qed.


Lemma keeps_ret {A} (a : A) : keeps (ret a).
Proof. intros w a' w' H. inversion H; subst. apply advances_refl. Qed.

Lemma keeps_raise {A} (e : exn) : keeps (@raise A e).
Proof. intros w a w' H. discriminate. Qed.

Lemma keeps_lift {A} (r : exn + A) : keeps (lift r).
Proof. destruct r; [apply keeps_raise | apply keeps_ret]. Qed.

Lemma keeps_bind {A B} (m : IO A) (k : A -> IO B) :
  keeps m -> (forall a, keeps (k a)) -> keeps (bind m k).
Proof.
  intros Hm Hk w b w' H. unfold bind in H.
  destruct (m w) as [a w1|] eqn:E; [|discriminate].
  eapply advances_trans; [eapply Hm, E | eapply Hk, H].
Qed.

Lemma keeps_emit (evs : list event) : Forall quiet evs -> keeps (emit evs).
Proof.
  intros Hq w a w' H. inversion H; subst. split; cbn.
  - exists []. reflexivity.
  - exists evs. auto.
Qed.

Lemma keeps_input_loop {A} (prompt : string) (body : string -> list event * option A) :
  (forall line, Forall quiet (fst (body line))) -> keeps (input_loop prompt body).
Proof.
  intros Hbody w a w'. unfold input_loop.
  destruct w as [lines out]. cbn [stdin stdout].
  revert out. induction lines as [|l lines IH]; intros out H; cbn in H.
  - discriminate.
  - destruct (snd (body l)) as [a'|] eqn:E.
    + inversion H; subst. split; cbn.
      * exists [l]. reflexivity.
      * eexists. split; [reflexivity|]. constructor; [exact I | apply Hbody].
    + apply IH in H. eapply advances_trans; [|exact H]. split; cbn.
      * exists [l]. reflexivity.
      * eexists. split; [reflexivity|]. constructor; [exact I | apply Hbody].
Qed.

End Console.

Create HintDb console.
#[local] Hint Resolve keeps_ret keeps_raise keeps_lift keeps_emit : console.

(** Proves [keeps] for a program built from [bind], conditionals and the
    actions known to the hint database [console]. *)
Ltac keeps_program :=
  repeat first
    [ apply keeps_bind; [|intros ?]
    | apply keeps_emit
    | solve [auto with console]
    | match goal with
      | |- keeps (if ?b then _ else _) => destruct b
      | |- keeps (match ?x with _ => _ end) => destruct x
      | |- keeps (let '(_, _) := ?x in _) => destruct x
      | |- Forall quiet _ => repeat constructor
      end ].

Lemma quiet_listing (line : string -> event) (items : list string) :
  (forall item, quiet (line item)) -> Forall quiet (List.map line items).
Proof.
  intros H. apply Forall_forall. intros ev Hin.
  apply in_map_iff in Hin. destruct Hin as (item & <- & _). apply H.
Qed.

Section FinalConsole.
Context {parser : FloatParser} {unicode : Text} {machine : Machine}.

Lemma final_print_stat_keeps (label : string) (number : Q) (units : string) :
  keeps (Final.print_stat label number units).
Proof. unfold Final.print_stat, print. keeps_program. Qed.

Lemma final_get_positive_number_keeps (prompt : string) :
  keeps (Final.get_positive_number prompt).
Proof.
  apply keeps_input_loop. intros line. unfold Final.positive_number_round.
  destruct (py_float _) as [x|]; [destruct (Qlt_bool 0 x)|]; repeat constructor.
Qed.

Lemma final_get_index_of_one_of_keeps (prompt : string) (options : list string) :
  keeps (Final.get_index_of_one_of prompt options).
Proof.
  apply keeps_input_loop. intros line. unfold Final.index_round.
  destruct (_ =? "options").
  - cbn. constructor; [exact I|]. constructor; [exact I|].
    apply Forall_app. split; [apply quiet_listing; intros; exact I | repeat constructor].
  - destruct (list_index _ _); repeat constructor.
Qed.

Lemma final_get_yes_or_no_keeps (prompt : string) (default : option bool) :
  keeps (Final.get_yes_or_no prompt default).
Proof.
  apply keeps_input_loop. intros line. unfold Final.yes_or_no_round.
  repeat match goal with
         | |- context [if ?b then _ else _] => destruct b
         | |- context [match ?d with Some _ => _ | None => _ end] => destruct d
         end; repeat constructor.
Qed.

#[local] Hint Resolve final_print_stat_keeps final_get_positive_number_keeps
  final_get_index_of_one_of_keeps final_get_yes_or_no_keeps : console.

Lemma final_calc_biking_keeps (weight_kg distance_mi duration_hours : Q) :
  keeps (Final.calc_biking weight_kg distance_mi duration_hours).
Proof. unfold Final.calc_biking. keeps_program. Qed.

Lemma final_calc_running_keeps (weight_kg distance_km : Q) :
  keeps (Final.calc_running weight_kg distance_km).
Proof. unfold Final.calc_running. keeps_program. Qed.

Lemma final_calc_swimming_keeps (weight_kg duration_hours : Q) :
  keeps (Final.calc_swimming weight_kg duration_hours).
Proof. unfold Final.calc_swimming. keeps_program. Qed.

#[local] Hint Resolve final_calc_biking_keeps final_calc_running_keeps
  final_calc_swimming_keeps : console.

Lemma final_bound_keeps (x : option Q) : keeps (Final.bound x).
Proof. destruct x; cbn; auto with console. Qed.

#[local] Hint Resolve final_bound_keeps : console.

Lemma final_run_command_keeps (command : string) : keeps (Final.run_command command).
Proof. unfold Final.run_command. keeps_program. Qed.

#[local] Hint Resolve final_run_command_keeps : console.

Lemma final_main_round_keeps (exercises : list exercise) :
  keeps (Final.main_round exercises).
Proof. unfold Final.main_round, print. keeps_program. Qed.

Lemma final_print_banner_keeps : keeps Final.print_banner.
Proof. unfold Final.print_banner, print, print_sep. keeps_program. Qed.

End FinalConsole.

Section MainConsole.
Context {parser : FloatParser} {unicode : Text} {machine : Machine}.

Lemma main_print_stat_keeps (label : string) (number : Q) :
  keeps (Main.print_stat label number).
Proof. unfold Main.print_stat, print_sep. keeps_program. Qed.

Lemma main_get_positive_number_keeps (prompt : string) :
  keeps (Main.get_positive_number prompt).
Proof.
  apply keeps_input_loop. intros line. unfold Main.positive_number_round.
  destruct (py_float _) as [x|]; [destruct (Qlt_bool 0 x)|]; repeat constructor.
Qed.

Lemma main_get_index_of_one_of_keeps (prompt : string) (options : list string) :
  keeps (Main.get_index_of_one_of prompt options).
Proof.
  apply keeps_input_loop. intros line. unfold Main.index_round.
  destruct (list_index _ _); repeat constructor.
Qed.

#[local] Hint Resolve main_print_stat_keeps main_get_positive_number_keeps
  main_get_index_of_one_of_keeps : console.

Lemma main_calc_biking_keeps (weight_kg distance_miles duration_hours : Q) :
  keeps (Main.calc_biking weight_kg distance_miles duration_hours).
Proof. unfold Main.calc_biking. keeps_program. Qed.

Lemma main_calc_running_keeps (weight_kg distance_km : Q) :
  keeps (Main.calc_running weight_kg distance_km).
Proof. unfold Main.calc_running. keeps_program. Qed.

Lemma main_calc_swimming_keeps (weight_kg duration_hours : Q) :
  keeps (Main.calc_swimming weight_kg duration_hours).
Proof. unfold Main.calc_swimming. keeps_program. Qed.

#[local] Hint Resolve main_calc_biking_keeps main_calc_running_keeps
  main_calc_swimming_keeps : console.

Lemma main_bound_keeps (x : option Q) : keeps (Main.bound x).
Proof. destruct x; cbn; auto with console. Qed.

#[local] Hint Resolve main_bound_keeps : console.

Lemma main_main_round_keeps (exercises : list exercise) :
  keeps (Main.main_round exercises).
Proof.
  unfold Main.main_round, print. keeps_program.
Qed.

Lemma main_print_banner_keeps : keeps Main.print_banner.
Proof. unfold Main.print_banner, print, print_sep. keeps_program. Qed.

End MainConsole.

(** * The values of the session *)

Section Returns.

Lemma bind_ok {A B} (m : IO A) (k : A -> IO B) (w w' : world) (b : B) :
  bind m k w = Ok b w' -> exists a w1, m w = Ok a w1 /\ k a w1 = Ok b w'.
Proof.
  unfold bind. destruct (m w) as [a w1|]; [|discriminate]. intros H. eauto.
Qed.

Lemma returns_ret {A} (P : A -> Prop) (a : A) : P a -> returns P (ret a).
Proof. intros H w a' w' E. inversion E; subst. exact H. Qed.

Lemma returns_raise {A} (P : A -> Prop) (e : exn) : returns P (raise e).
Proof. intros w a w' E. discriminate. Qed.

Lemma returns_any {A} (m : IO A) : returns (fun _ => True) m.
Proof. intros w a w' _. exact I. Qed.

Lemma returns_bind {A B} (P : A -> Prop) (Q : B -> Prop) (m : IO A) (k : A -> IO B) :
  returns P m -> (forall a, P a -> returns Q (k a)) -> returns Q (bind m k).
Proof.
  intros Hm Hk w b w' H. apply bind_ok in H. destruct H as (a & w1 & H1 & H2).
  eapply Hk; [eapply Hm, H1 | exact H2].
Qed.

Lemma returns_lift {A} (P : A -> Prop) (r : exn + A) :
  (forall a, r = inr a -> P a) -> returns P (lift r).
Proof.
  intros H. destruct r as [e|a]; [apply returns_raise | apply returns_ret; auto].
Qed.

(** The calories of an activity: a positive duration, MET and weight. *)
Lemma met_calories_positive (duration_hours met weight_kg : Q) :
  0 < duration_hours -> 0 < met -> 0 < weight_kg -> 0 < duration_hours * met * weight_kg.
Proof.
  intros Ht Hm Hw. apply Qmult_lt_0_compat; [apply Qmult_lt_0_compat|]; assumption.
Qed.

Lemma fitness_factor_at_least_one (age_years resting_heart_bpm factor : Q) :
  car_resp_fitness_factor age_years resting_heart_bpm = inr factor -> 1 <= factor.
Proof.
  unfold car_resp_fitness_factor.
  destruct (truediv _ _) as [e|vo2_max]; [discriminate|].
  intros [= <-]. apply constrain_bounds. lra.
Qed.

Lemma getitem_in {A} (l : list A) (i : Z) (a : A) : getitem l i = inr a -> In a l.
Proof.
  unfold getitem. destruct (_ && _); [|discriminate].
  destruct (nth_error l _) as [a'|] eqn:E; [|discriminate].
  intros [= <-]. eapply nth_error_In, E.
Qed.

Lemma getitem_nth {A} (l : list A) (i : nat) (a : A) :
  nth_error l i = Some a -> getitem l (Z.of_nat i) = inr a.
Proof.
  intros H. unfold getitem.
  assert (Hlt : (i < List.length l)%nat) by (apply nth_error_Some; congruence).
  destruct (Z.ltb_spec (Z.of_nat i) 0) as [Hneg|_]; [lia|].
  destruct (Z.leb_spec 0 (Z.of_nat i)) as [_|Hneg]; [|lia].
  destruct (Z.ltb_spec (Z.of_nat i) (Z.of_nat (List.length l))) as [_|Hge]; [|lia].
  cbn. rewrite Nat2Z.id, H. reflexivity.
Qed.

End Returns.

Section Calculators.
Context {parser : FloatParser} {unicode : Text} {machine : Machine}.

Lemma final_get_positive_number_returns (prompt : string) :
  returns (fun number => 0 < number) (Final.get_positive_number prompt).
Proof. intros w a w'. apply final_get_positive_number_positive. Qed.

Lemma main_get_positive_number_returns (prompt : string) :
  returns (fun number => 0 < number) (Main.get_positive_number prompt).
Proof. intros w a w'. apply main_get_positive_number_positive. Qed.

(** The calculators return positive calories for positive measurements. *)
Lemma final_calc_biking_returns (weight_kg distance_mi duration_hours : Q) :
  0 < weight_kg -> 0 < distance_mi -> 0 < duration_hours ->
  returns (fun calories => 0 < calories)
    (Final.calc_biking weight_kg distance_mi duration_hours).
Proof.
  intros Hw Hd Ht. unfold Final.calc_biking.
  eapply returns_bind; [apply returns_any|]. intros speed_mph _.
  eapply returns_bind; [apply returns_any|]. intros _ _.
  eapply returns_bind; [apply returns_any|]. intros _ _.
  eapply returns_bind; [apply returns_any|]. intros _ _.
  apply returns_ret. apply met_calories_positive; try assumption.
  pose proof (constrain_bounds 4 (speed_mph - 5) 16). lra.
Qed.

Lemma main_calc_biking_returns (weight_kg distance_miles duration_hours : Q) :
  0 < weight_kg -> 0 < distance_miles -> 0 < duration_hours ->
  returns (fun calories => 0 < calories)
    (Main.calc_biking weight_kg distance_miles duration_hours).
Proof.
  intros Hw Hd Ht. unfold Main.calc_biking.
  eapply returns_bind; [apply returns_any|]. intros speed_mph _.
  eapply returns_bind; [apply returns_any|]. intros _ _.
  eapply returns_bind; [apply returns_any|]. intros _ _.
  eapply returns_bind; [apply returns_any|]. intros _ _.
  apply returns_ret. apply met_calories_positive; try assumption.
  pose proof (constrain_bounds 4 (speed_mph - 5) 16). lra.
Qed.

Lemma final_calc_running_returns (weight_kg distance_km : Q) :
  0 < weight_kg -> 0 < distance_km ->
  returns (fun calories => 0 < calories) (Final.calc_running weight_kg distance_km).
Proof.
  intros Hw Hd. unfold Final.calc_running.
  eapply returns_bind; [apply returns_any|]. intros age_years _.
  eapply returns_bind; [apply returns_any|]. intros resting_heart_bpm _.
  eapply returns_bind; [apply returns_any|]. intros on_a_treadmill _.
  eapply returns_bind; [apply returns_lift; intros factor H; exact H|].
  intros factor H. apply fitness_factor_at_least_one in H.
  apply returns_ret.
  apply Qmult_lt_0_compat; [apply Qmult_lt_0_compat|]; try lra.
  destruct on_a_treadmill; cbn [negb]; lra.
Qed.

Lemma main_calc_running_returns (weight_kg distance_km : Q) :
  0 < weight_kg -> 0 < distance_km ->
  returns (fun calories => 0 < calories) (Main.calc_running weight_kg distance_km).
Proof.
  intros Hw Hd. unfold Main.calc_running.
  eapply returns_bind; [apply returns_any|]. intros age_years _.
  eapply returns_bind; [apply returns_any|]. intros resting_heart_bpm _.
  eapply returns_bind; [apply returns_lift; intros factor H; exact H|].
  intros factor H. apply fitness_factor_at_least_one in H.
  apply returns_ret.
  apply Qmult_lt_0_compat; [apply Qmult_lt_0_compat|]; lra.
Qed.

Lemma style_met_positive (i : Z) (met : Q) :
  getitem SWIMMING_STYLE_METS i = inr met -> 0 < met.
Proof.
  intros H. apply getitem_in in H. unfold SWIMMING_STYLE_METS in H. cbn in H.
  repeat (destruct H as [<- | H]; [reflexivity|]). contradiction.
Qed.

Lemma final_calc_swimming_returns (weight_kg duration_hours : Q) :
  0 < weight_kg -> 0 < duration_hours ->
  returns (fun calories => 0 < calories) (Final.calc_swimming weight_kg duration_hours).
Proof.
  intros Hw Ht. unfold Final.calc_swimming.
  eapply returns_bind; [apply returns_any|]. intros style_index _.
  eapply returns_bind; [apply returns_lift; intros met H; exact H|].
  intros met H. apply returns_ret. apply met_calories_positive; try assumption.
  eapply style_met_positive, H.
Qed.

Lemma main_calc_swimming_returns (weight_kg duration_hours : Q) :
  0 < weight_kg -> 0 < duration_hours ->
  returns (fun calories => 0 < calories) (Main.calc_swimming weight_kg duration_hours).
Proof.
  intros Hw Ht. unfold Main.calc_swimming.
  eapply returns_bind; [apply returns_any|]. intros style_index _.
  eapply returns_bind; [apply returns_lift; intros met H; exact H|].
  intros met H. apply returns_ret. apply met_calories_positive; try assumption.
  eapply style_met_positive, H.
Qed.

End Calculators.

Section Measurements.
Context {parser : FloatParser} {unicode : Text} {machine : Machine}.

Lemma final_bound_returns (x : option Q) : returns (fun v => x = Some v) (Final.bound x).
Proof. destruct x; cbn; [now apply returns_ret | apply returns_raise]. Qed.

Lemma main_bound_returns (x : option Q) : returns (fun v => x = Some v) (Main.bound x).
Proof. destruct x; cbn; [now apply returns_ret | apply returns_raise]. Qed.

Lemma kilograms_positive (weight_pounds : Q) :
  0 < weight_pounds -> 0 < weight_pounds * KILOGRAMS_PER_POUND.
Proof. intros H. apply Qmult_lt_0_compat; [assumption | reflexivity]. Qed.

Lemma kilometers_positive (distance_mi : Q) :
  0 < distance_mi -> 0 < distance_mi * KILOMETERS_PER_MILE.
Proof. intros H. apply Qmult_lt_0_compat; [assumption | reflexivity]. Qed.

Lemma hours_positive (duration_minutes : Q) :
  0 < duration_minutes -> 0 < duration_minutes / MINUTES_PER_HOUR.
Proof. intros H. apply Qmult_lt_0_compat; [assumption | reflexivity]. Qed.

End Measurements.

(** The measurements of a command and its calculation, from the prompt for
    the weight to the calories: the same steps in [Final.run_command] and
    in the loop of [Main.main].  Leaves the goal of what follows the
    calculation, for positive calories. *)
Ltac measure_and_calculate command reads bound_returns biking running swimming :=
  eapply returns_bind; [apply reads|]; intros weight_pounds Hweight;
  apply kilograms_positive in Hweight;
  eapply returns_bind; [apply returns_any|]; intros _ _;
  eapply returns_bind with
    (P := fun ds : option Q * option Q =>
            ((command =? "biking") || (command =? "running") = true ->
             exists mi km, ds = (Some mi, Some km) /\ 0 < mi /\ 0 < km));
  [ destruct ((command =? "biking") || (command =? "running"));
    [ eapply returns_bind; [apply reads|]; intros mi Hmi;
      eapply returns_bind; [apply returns_any|]; intros _ _;
      apply returns_ret; intros _; exists mi, (mi * KILOMETERS_PER_MILE);
      repeat split; [assumption | now apply kilometers_positive]
    | apply returns_ret; discriminate ]
  | ];
  intros [distance_mi distance_km] Hdistance;
  eapply returns_bind with
    (P := fun t : option Q =>
            (negb (negb (command =? "biking") && negb (command =? "swimming")) = true ->
             exists h, t = Some h /\ 0 < h)
            /\ (negb (negb (command =? "biking") && negb (command =? "swimming")) = false ->
                t = None));
  [ destruct (negb (negb (command =? "biking") && negb (command =? "swimming")));
    [ eapply returns_bind; [apply reads|]; intros minutes Hminutes;
      apply returns_ret; split; [|discriminate];
      intros _; eexists; split; [reflexivity | now apply hours_positive]
    | apply returns_ret; split; [discriminate | reflexivity] ]
  | ];
  intros duration_hours [Hduration Hnone];
  eapply returns_bind with (P := fun calories : Q => 0 < calories);
  [ revert Hdistance Hduration Hnone;
    destruct (command =? "biking"), (command =? "running"), (command =? "swimming");
    cbv beta iota delta [orb andb negb];
    intros Hdistance Hduration Hnone;
    try (destruct Hdistance as (mi & km & [= -> ->] & Hmi & Hkm); [reflexivity|]);
    try (destruct Hduration as (h & -> & Hh); [reflexivity|]);
    try (rewrite Hnone by reflexivity);
    first
      [ eapply returns_bind; [apply bound_returns|]; intros d [= <-];
        eapply returns_bind; [apply bound_returns|]; intros t [= <-];
        now apply biking
      | eapply returns_bind; [apply bound_returns|]; intros d [= <-];
        now apply running
      | eapply returns_bind; [apply bound_returns|]; intros t [= <-];
        now apply swimming
      | eapply returns_bind with (P := fun _ : Q => False);
        [intros ? ? ? [=] | intros ? []] ]
  | ].

Section RunCommand.
Context {parser : FloatParser} {unicode : Text} {machine : Machine}.

Lemma final_run_command_returns (command : string) :
  returns (fun calories => 0 < calories) (Final.run_command command).
Proof.
  unfold Final.run_command.
  measure_and_calculate command final_get_positive_number_returns final_bound_returns
    final_calc_biking_returns final_calc_running_returns final_calc_swimming_returns.
  intros calories Hc. eapply returns_bind; [apply returns_any|]. intros _ _.
  now apply returns_ret.
Qed.

End RunCommand.

(** * The loop of [main] *)

(** [plain x]: [x] holds no action or condition still to be decided. *)
Ltac plain x :=
  lazymatch x with
  | context [match _ with Ok _ _ => _ | Raise _ _ => _ end] => fail
  | context [if _ then _ else _] => fail
  | _ => idtac
  end.

(** Compares two runs of the same program text step by step: destructs the
    next condition, the next pair or the result of the next action. *)
Ltac same_steps :=
  repeat (first
    [ reflexivity
    | match goal with
      | |- context [if ?c then _ else _] => plain c; destruct c
      | |- context [let '(_, _) := ?p in _] => plain p; destruct p
      | |- context [match ?x with Ok _ _ => _ | Raise _ _ => _ end] =>
          plain x; destruct x as [? ?|? ?]
      end ];
    cbv beta iota).

Section Rounds.
Context {parser : FloatParser} {unicode : Text} {machine : Machine}.

Lemma getitem_nat {A} (l : list A) (i : nat) (a : A) :
  getitem l (Z.of_nat i) = inr a -> nth_error l i = Some a.
Proof.
  unfold getitem.
  destruct (Z.ltb_spec (Z.of_nat i) 0) as [Hneg|_]; [lia|].
  destruct (_ && _); [|discriminate]. rewrite Nat2Z.id.
  destruct (nth_error l i); [|discriminate]. now intros [= <-].
Qed.

(** A round of [Final.py]: [exit] leaves the list as it is, any other
    command adds its entry. *)
Lemma final_main_round_returns (exercises : list exercise) :
  returns (round_adds exercises) (Final.main_round exercises).
Proof.
  unfold Final.main_round.
  eapply returns_bind; [apply returns_any|]. intros _ _.
  eapply returns_bind; [apply returns_any|]. intros command_index _.
  eapply returns_bind;
    [apply returns_lift; intros command H; apply getitem_in in H; exact H|].
  intros command Hin. destruct (command =? "exit") eqn:Eexit.
  - apply returns_ret. exists []. cbn. rewrite app_nil_r. auto.
  - eapply returns_bind; [apply final_run_command_returns|]. intros calories Hc.
    apply returns_ret. exists [(command, calories)]. cbn.
    split; [reflexivity|]. split; [|discriminate].
    constructor; [|constructor]. split; [|exact Hc]. cbn.
    unfold Final.COMMANDS in Hin. cbn in Hin.
    destruct Hin as [<- | [<- | [<- | [<- | []]]]]; auto. discriminate.
Qed.

(** A round of [Main.py]: [exit] and [swimming styles] leave the list as
    it is, any other command adds its entry. *)
Lemma main_main_round_returns (exercises : list exercise) :
  returns (round_adds exercises) (Main.main_round exercises).
Proof.
  unfold Main.main_round.
  eapply returns_bind; [apply returns_any|]. intros _ _.
  eapply returns_bind; [apply returns_any|]. intros command_index _.
  eapply returns_bind;
    [apply returns_lift; intros exit_index H; exact H|].
  intros exit_index [= <-].
  destruct (command_index =? 4)%nat eqn:Eexit.
  - apply returns_ret. exists []. cbn. rewrite app_nil_r. auto.
  - eapply returns_bind;
      [apply returns_lift; intros command H; apply getitem_nat in H; exact H|].
    intros command Hnth.
    assert (Hin : In command ["biking"; "running"; "swimming"; "swimming styles"]).
    { unfold Main.COMMANDS in Hnth.
      do 4 (destruct command_index as [|command_index];
            [cbn in Hnth; inversion Hnth; cbn; auto|]).
      destruct command_index as [|command_index]; [discriminate Eexit|].
      cbn in Hnth. destruct command_index; discriminate Hnth. }
    destruct (command =? "swimming styles") eqn:Estyles.
    + eapply returns_bind; [apply returns_any|]. intros _ _.
      eapply returns_bind; [apply returns_any|]. intros _ _.
      apply returns_ret. exists []. cbn. rewrite app_nil_r. auto.
    + measure_and_calculate command main_get_positive_number_returns main_bound_returns
        main_calc_biking_returns main_calc_running_returns main_calc_swimming_returns.
      intros calories Hc. eapply returns_bind; [apply returns_any|]. intros _ _.
      apply returns_ret. exists [(command, calories)]. cbn.
      split; [reflexivity|]. split; [|discriminate].
      constructor; [|constructor]. split; [|exact Hc]. cbn.
      cbn in Hin. destruct Hin as [<- | [<- | [<- | [<- | []]]]]; auto. discriminate.
Qed.

(** A round does not read the list it extends: on any list it does what it
    does on the empty one. *)
Lemma final_main_round_prefix (exercises : list exercise) (w : world) :
  Final.main_round exercises w
  = match Final.main_round [] w with
    | Ok (should_exit, added) w' => Ok (should_exit, (exercises ++ added)%list) w'
    | Raise e w' => Raise e w'
    end.
Proof.
  unfold Final.main_round, bind, ret. same_steps.
  now rewrite app_nil_r.
Qed.

Lemma main_main_round_prefix (exercises : list exercise) (w : world) :
  Main.main_round exercises w
  = match Main.main_round [] w with
    | Ok (broke, added) w' => Ok (broke, (exercises ++ added)%list) w'
    | Raise e w' => Raise e w'
    end.
Proof.
  unfold Main.main_round, bind, ret. same_steps.
  all: now rewrite app_nil_r.
Qed.

End Rounds.

(** The loops of the two variants are the same loop around their rounds. *)
Section MainLoop.
Variable round : list exercise -> IO (bool * list exercise).
Variable loop : nat -> list exercise -> world -> option (result (list exercise)).

Hypothesis loop_O : forall exercises w, loop O exercises w = None.
Hypothesis loop_S :
  forall fuel exercises w,
    loop (S fuel) exercises w
    = match round exercises w with
      | Ok (stop, exercises') w' =>
          if stop then Some (Ok exercises' w') else loop fuel exercises' w'
      | Raise e w' => Some (Raise e w')
      end.
Hypothesis round_returns : forall exercises, returns (round_adds exercises) (round exercises).
Hypothesis round_prefix :
  forall exercises w,
    round exercises w
    = match round [] w with
      | Ok (stop, added) w' => Ok (stop, (exercises ++ added)%list) w'
      | Raise e w' => Raise e w'
      end.
Hypothesis round_keeps : forall exercises, keeps (round exercises).
Hypothesis round_consumes :
  forall exercises w r w',
    round exercises w = Ok r w' -> (List.length (stdin w') < List.length (stdin w))%nat.

(** The loop does not read the list either. *)
Lemma loop_prefix (fuel : nat) (exercises : list exercise) (w : world) :
  loop fuel exercises w
  = match loop fuel [] w with
    | Some (Ok added w') => Some (Ok (exercises ++ added)%list w')
    | Some (Raise e w') => Some (Raise e w')
    | None => None
    end.
Proof.
  revert exercises w. induction fuel as [|fuel IH]; intros exercises w.
  - now rewrite !loop_O.
  - rewrite !loop_S, round_prefix.
    destruct (round [] w) as [[stop added] w1|e w1]; [|reflexivity].
    destruct stop; [reflexivity|].
    rewrite (IH (exercises ++ added)%list), (IH ([] ++ added)%list).
    destruct (loop fuel [] w1) as [[more w2|e w2]|]; try reflexivity.
    cbn. now rewrite app_assoc.
Qed.

(** What the loop has gathered from an empty list is well formed. *)
Lemma loop_gathers (fuel : nat) (w w' : world) (added : list exercise) :
  loop fuel [] w = Some (Ok added w') -> Forall well_formed added.
Proof.
  revert w added. induction fuel as [|fuel IH]; intros w added H.
  - rewrite loop_O in H. discriminate.
  - rewrite loop_S in H.
    destruct (round [] w) as [[stop first] w1|e w1] eqn:E; [|discriminate].
    destruct (round_returns _ _ _ _ E) as (first' & Hfirst & Hwf & _).
    cbn in Hfirst. subst first'.
    destruct stop.
    + inversion H; subst. exact Hwf.
    + rewrite loop_prefix in H.
      destruct (loop fuel [] w1) as [[more w2|e w2]|] eqn:E2; try discriminate.
      inversion H; subst. apply Forall_app. split; [exact Hwf|]. eapply IH, E2.
Qed.

(** The loop only appends. *)
Lemma loop_appends (fuel : nat) (exercises exercises' : list exercise) (w w' : world) :
  loop fuel exercises w = Some (Ok exercises' w') ->
  exists added,
    exercises' = (exercises ++ added)%list
    /\ Forall well_formed added
    /\ loop fuel [] w = Some (Ok added w').
Proof.
  intros H. rewrite loop_prefix in H.
  destruct (loop fuel [] w) as [[added w2|e w2]|] eqn:E; try discriminate.
  inversion H; subst. exists added. split; [reflexivity|].
  split; [eapply loop_gathers, E | reflexivity].
Qed.

(** The loop writes quiet events only. *)
Lemma loop_keeps (fuel : nat) (exercises exercises' : list exercise) (w w' : world) :
  loop fuel exercises w = Some (Ok exercises' w') -> advances w w'.
Proof.
  revert exercises w. induction fuel as [|fuel IH]; intros exercises w H.
  - rewrite loop_O in H. discriminate.
  - rewrite loop_S in H.
    destruct (round exercises w) as [[stop first] w1|e w1] eqn:E; [|discriminate].
    apply round_keeps in E. destruct stop.
    + inversion H; subst. exact E.
    + eapply advances_trans; [exact E | eapply IH, H].
Qed.


End MainLoop.

#[local] Hint Resolve final_print_stat_keeps final_get_positive_number_keeps
  final_get_index_of_one_of_keeps final_get_yes_or_no_keeps final_bound_keeps
  final_run_command_keeps main_print_stat_keeps main_get_positive_number_keeps
  main_get_index_of_one_of_keeps main_bound_keeps : console.

Section Sessions.
Context {parser : FloatParser} {unicode : Text} {machine : Machine}.



(** C9.  In both variants the loop of [main] only appends to [exercises]:
    the list it ends with is the list it started from followed by the
    entries of the session, each the name of one of the commands biking,
    running and swimming with a positive number of calories (every
    calculator returns positive calories for positive measurements).  The
    loop does not read the list: started from the empty list it ends with
    the added entries alone, on the same console.  The list then goes to
    the summary, unchanged. *)
Theorem exercises_only_appended :
  (forall fuel exercises exercises' w w',
      Final.main_loop fuel exercises w = Some (Ok exercises' w') ->
      exists added,
        exercises' = (exercises ++ added)%list
        /\ Forall well_formed added
        /\ Final.main_loop fuel [] w = Some (Ok added w'))
  /\ (forall fuel exercises exercises' w w',
         Main.main_loop fuel exercises w = Some (Ok exercises' w') ->
         exists added,
           exercises' = (exercises ++ added)%list
           /\ Forall well_formed added
           /\ Main.main_loop fuel [] w = Some (Ok added w'))
  /\ (forall weight_kg distance duration_hours,
         0 < weight_kg -> 0 < distance -> 0 < duration_hours ->
         returns (fun calories => 0 < calories)
           (Final.calc_biking weight_kg distance duration_hours)
         /\ returns (fun calories => 0 < calories)
              (Final.calc_running weight_kg distance)
         /\ returns (fun calories => 0 < calories)
              (Final.calc_swimming weight_kg duration_hours)
         /\ returns (fun calories => 0 < calories)
              (Main.calc_biking weight_kg distance duration_hours)
         /\ returns (fun calories => 0 < calories)
              (Main.calc_running weight_kg distance)
         /\ returns (fun calories => 0 < calories)
              (Main.calc_swimming weight_kg duration_hours))
  /\ (forall w w1 exercises w2,
         Final.print_banner w = Ok tt w1 ->
         Final.main_loop (S (List.length (stdin w1))) [] w1 = Some (Ok exercises w2) ->
         Forall well_formed exercises
         /\ Final.main w = Some (Final.print_summary exercises w2))
  /\ (forall w w1 exercises w2,
         Main.print_banner w = Ok tt w1 ->
         Main.main_loop (S (List.length (stdin w1))) [] w1 = Some (Ok exercises w2) ->
         Forall well_formed exercises
         /\ Main.main w = Some (Main.print_summary exercises w2)).
Proof.
  split; [|split; [|split; [|split]]].
  - intros fuel exercises exercises' w w'.
    apply (loop_appends Final.main_round Final.main_loop); try reflexivity.
    + apply final_main_round_returns.
    + apply final_main_round_prefix.
  - intros fuel exercises exercises' w w'.
    apply (loop_appends Main.main_round Main.main_loop); try reflexivity.
    + apply main_main_round_returns.
    + apply main_main_round_prefix.
  - intros weight_kg distance duration_hours Hw Hd Ht.
    split; [now apply final_calc_biking_returns|].
    split; [now apply final_calc_running_returns|].
    split; [now apply final_calc_swimming_returns|].
    split; [now apply main_calc_biking_returns|].
    split; [now apply main_calc_running_returns|].
    now apply main_calc_swimming_returns.
  - intros w w1 exercises w2 Hbanner Hloop. split.
    + eapply (loop_gathers Final.main_round Final.main_loop); try reflexivity.
      * apply final_main_round_returns.
      * apply final_main_round_prefix.
      * exact Hloop.
    + unfold Final.main. now rewrite Hbanner, Hloop.
  - intros w w1 exercises w2 Hbanner Hloop. split.
    + eapply (loop_gathers Main.main_round Main.main_loop); try reflexivity.
      * apply main_main_round_returns.
      * apply main_main_round_prefix.
      * exact Hloop.
    + unfold Main.main. now rewrite Hbanner, Hloop.
Qed.


End Sessions.

(** * The summary *)

Section Bars.
Context {machine : Machine}.
Variable bar : string -> Q -> IO unit.
Hypothesis bar_writes :
  forall label calories w,
    bar_fits calories ->
    exists line, bar label calories w = Ok tt (World (stdin w) (stdout w ++ [line])%list).


End Bars.

Section BarFailures.
Context {machine : Machine}.
Variable bar : string -> Q -> IO unit.
Hypothesis bar_writes :
  forall label calories w,
    bar_fits calories ->
    exists line, bar label calories w = Ok tt (World (stdin w) (stdout w ++ [line])%list).
Hypothesis bar_raises :
  forall label calories w,
    ~ bar_fits calories ->
    exists e, (e = OverflowError \/ e = MemoryError) /\ bar label calories w = Raise e w.

(** The [for] loop of the summary ends well when every bar fits, and with
    the exception of the first bar that does not otherwise; it reads no
    line. *)
Lemma summary_loop_outcome (exercises done rest : list exercise) (total : Q) (w : world) :
  exercises = (done ++ rest)%list ->
  match
    for_range (seq (List.length done) (List.length rest))
      (fun index total_calories_burned =>
         bind (lift (getitem exercises (Z.of_nat index))) (fun entry =>
         bind (bar (str_of_nat (index + 1) ++ ". " ++ fst entry) (snd entry)) (fun _ =>
         ret (total_calories_burned + snd entry))))
      total w
  with
  | Ok _ w' => stdin w' = stdin w /\ Forall (fun entry => bar_fits (snd entry)) rest
  | Raise e w' =>
      (e = OverflowError \/ e = MemoryError)
      /\ stdin w' = stdin w
      /\ Exists (fun entry => ~ bar_fits (snd entry)) rest
  end.
Proof.
  revert done total w. induction rest as [|entry rest IH]; intros done total w E.
  - cbn. auto.
  - cbn [List.length seq for_range].
    unfold bind at 1. unfold bind at 1.
    assert (Hget : getitem exercises (Z.of_nat (List.length done)) = inr entry).
    { apply getitem_nth. subst exercises.
      rewrite nth_error_app2, Nat.sub_diag by lia. reflexivity. }
    rewrite Hget. cbn [lift ret]. unfold bind at 1.
    destruct (bar_fits_dec (snd entry)) as [Hfits|Hnot].
    + destruct (bar_writes (str_of_nat (List.length done + 1) ++ ". " ++ fst entry)
                  (snd entry) w Hfits) as [line Hline].
      rewrite Hline. cbn [ret].
      specialize (IH (done ++ [entry])%list (total + snd entry)
                    (World (stdin w) (stdout w ++ [line])%list)).
      rewrite length_app, Nat.add_1_r in IH. cbn [List.length] in IH.
      destruct (for_range _ _ _ _) as [total' w'|e w'].
      * destruct IH as [Hin Hall]; [subst; now rewrite <- app_assoc|]. auto.
      * destruct IH as (He & Hin & Hex); [subst; now rewrite <- app_assoc|]. auto.
    + destruct (bar_raises (str_of_nat (List.length done + 1) ++ ". " ++ fst entry)
                  (snd entry) w Hnot) as (e & He & Hraise).
      rewrite Hraise. auto.
Qed.

End BarFailures.

Section Summary.
Context {machine : Machine}.

Lemma final_bar_writes (label : string) (calories : Q) (w : world) :
  bar_fits calories ->
  exists line,
    Final.print_calories_bar label calories w
    = Ok tt (World (stdin w) (stdout w ++ [line])%list).
Proof.
  intros Hfits.
  destruct (print_calories_bar_writes label calories w Hfits)
    as (character & _ & _ & _ & H & _).
  eexists. exact H.
Qed.

Lemma main_bar_writes (label : string) (calories : Q) (w : world) :
  bar_fits calories ->
  exists line,
    Main.print_calories_bar label calories w
    = Ok tt (World (stdin w) (stdout w ++ [line])%list).
Proof.
  intros Hfits.
  destruct (print_calories_bar_writes label calories w Hfits)
    as (character & _ & _ & _ & _ & H).
  eexists. exact H.
Qed.

Lemma nonempty_length {A} (l : list A) : l <> [] -> (0 <? List.length l)%nat = true.
Proof. destruct l; [congruence | reflexivity]. Qed.

Lemma final_bar_raises (label : string) (calories : Q) (w : world) :
  ~ bar_fits calories ->
  exists e,
    (e = OverflowError \/ e = MemoryError)
    /\ Final.print_calories_bar label calories w = Raise e w.
Proof.
  intros Hnot.
  destruct (print_calories_bar_raises label calories w Hnot) as (e & He & H & _).
  eauto.
Qed.

Lemma main_bar_raises (label : string) (calories : Q) (w : world) :
  ~ bar_fits calories ->
  exists e,
    (e = OverflowError \/ e = MemoryError)
    /\ Main.print_calories_bar label calories w = Raise e w.
Proof.
  intros Hnot.
  destruct (print_calories_bar_raises label calories w Hnot) as (e & He & _ & H).
  eauto.
Qed.

(** The summary reads no line; it ends well when the bar of every entry
    fits, and with the exception of a bar that does not otherwise. *)
Lemma print_summary_outcome (exercises : list exercise) (w : world) :
  match Final.print_summary exercises w with
  | Ok _ w' => stdin w' = stdin w /\ Forall (fun entry => bar_fits (snd entry)) exercises
  | Raise e w' =>
      (e = OverflowError \/ e = MemoryError)
      /\ stdin w' = stdin w
      /\ Exists (fun entry => ~ bar_fits (snd entry)) exercises
  end
  /\ match Main.print_summary exercises w with
     | Ok _ w' => stdin w' = stdin w /\ Forall (fun entry => bar_fits (snd entry)) exercises
     | Raise e w' =>
         (e = OverflowError \/ e = MemoryError)
         /\ stdin w' = stdin w
         /\ Exists (fun entry => ~ bar_fits (snd entry)) exercises
     end.
Proof.
  destruct exercises as [|entry exercises]; [split; cbn; auto|].
  set (recorded := entry :: exercises).
  set (heading := Print [VStr (NL ++ "Calories burned per exercise:")] " " NL).
  split.
  - pose proof (summary_loop_outcome Final.print_calories_bar final_bar_writes
                  final_bar_raises recorded [] recorded 0
                  (World (stdin w) (stdout w ++ [heading])%list) eq_refl) as H.
    unfold Final.print_summary.
    change (0 <? List.length recorded)%nat with true. cbv iota.
    unfold bind at 1. unfold print at 1, emit at 1.
    unfold bind at 1. cbn [List.length] in H.
    cbv zeta in H |- *. cbn [stdin stdout] in H.
    fold heading. unfold print_event at 1. fold heading.
    destruct (for_range _ _ _ _) as [total w'|e w']; [|exact H].
    destruct H as [Hin Hall]. unfold print, emit. cbn [stdin]. auto.
  - pose proof (summary_loop_outcome Main.print_calories_bar main_bar_writes
                  main_bar_raises recorded [] recorded 0
                  (World (stdin w) (stdout w ++ [heading])%list) eq_refl) as H.
    unfold Main.print_summary.
    change (0 <? List.length recorded)%nat with true. cbv iota.
    unfold bind at 1. unfold print at 1, emit at 1.
    unfold bind at 1. cbn [List.length] in H.
    cbv zeta in H |- *. cbn [stdin stdout] in H.
    fold heading. unfold print_event at 1. fold heading.
    destruct (for_range _ _ _ _) as [total w'|e w']; [|exact H].
    destruct H as [Hin Hall]. unfold print, emit. cbn [stdin]. auto.
Qed.

(** The summary of entries whose bars all fit. *)
Lemma print_summary_ok (exercises : list exercise) (w : world) :
  Forall (fun entry => bar_fits (snd entry)) exercises ->
  (exists out, Final.print_summary exercises w = Ok tt (World (stdin w) out))
  /\ (exists out, Main.print_summary exercises w = Ok tt (World (stdin w) out)).
Proof.
  intros Hfits. destruct (print_summary_outcome exercises w) as [HF HM].
  split.
  - destruct (Final.print_summary exercises w) as [[] [lines out]|e w'].
    + destruct HF as [Hin _]. cbn in Hin. subst. eauto.
    + destruct HF as (_ & _ & Hex). apply Exists_exists in Hex.
      destruct Hex as (entry & Hentry & Hnot). rewrite Forall_forall in Hfits.
      now specialize (Hfits entry Hentry).
  - destruct (Main.print_summary exercises w) as [[] [lines out]|e w'].
    + destruct HM as [Hin _]. cbn in Hin. subst. eauto.
    + destruct HM as (_ & _ & Hex). apply Exists_exists in Hex.
      destruct Hex as (entry & Hentry & Hnot). rewrite Forall_forall in Hfits.
      now specialize (Hfits entry Hentry).
Qed.


End Summary.

Section EmptySession.
Context {parser : FloatParser} {unicode : Text} {machine : Machine}.

(** C8.  With no exercise recorded the summary is the notice alone.  So a
    session whose loop ends with an empty list writes, after what was on
    the console, quiet events only (neither a bar nor a total is quiet)
    and then the notice. *)
Theorem no_exercises_notice :
  let notice := Print [VStr (NL ++ "No exercises recorded.")] " " NL in
  (forall w,
      Final.print_summary [] w = Ok tt (World (stdin w) (stdout w ++ [notice])%list))
  /\ (forall w,
         Main.print_summary [] w = Ok tt (World (stdin w) (stdout w ++ [notice])%list))
  /\ (forall w w1 w2,
         Final.print_banner w = Ok tt w1 ->
         Final.main_loop (S (List.length (stdin w1))) [] w1 = Some (Ok [] w2) ->
         exists written,
           Forall quiet written
           /\ Final.main w
              = Some (Ok tt (World (stdin w2) (stdout w ++ written ++ [notice])%list)))
  /\ (forall w w1 w2,
         Main.print_banner w = Ok tt w1 ->
         Main.main_loop (S (List.length (stdin w1))) [] w1 = Some (Ok [] w2) ->
         exists written,
           Forall quiet written
           /\ Main.main w
              = Some (Ok tt (World (stdin w2) (stdout w ++ written ++ [notice])%list)))
  /\ quiet notice
  /\ (forall bar calories sep end_, ~ quiet (Print [VStr bar; VInt calories] sep end_))
  /\ (forall label total units sep end_,
         ~ quiet (Print [VStr label; VInt total; VStr units] sep end_)).
Proof.
  intros notice.
  split; [reflexivity|]. split; [reflexivity|].
  split; [|split; [|split; [exact I | split; intros; intros []]]].
  - intros w w1 w2 Hbanner Hloop.
    pose proof (final_print_banner_keeps _ _ _ Hbanner) as Hb.
    pose proof (loop_keeps Final.main_round Final.main_loop
                  ltac:(reflexivity) ltac:(reflexivity) final_main_round_keeps
                  _ _ _ _ _ Hloop) as Hl.
    destruct (advances_trans _ _ _ Hb Hl) as [_ (written & Hout & Hq)].
    exists written. split; [exact Hq|].
    unfold Final.main. rewrite Hbanner, Hloop.
    unfold Final.print_summary. cbn [List.length Nat.ltb Nat.leb Nat.eqb].
    unfold print, emit. rewrite Hout, <- app_assoc. reflexivity.
  - intros w w1 w2 Hbanner Hloop.
    pose proof (main_print_banner_keeps _ _ _ Hbanner) as Hb.
    pose proof (loop_keeps Main.main_round Main.main_loop
                  ltac:(reflexivity) ltac:(reflexivity) main_main_round_keeps
                  _ _ _ _ _ Hloop) as Hl.
    destruct (advances_trans _ _ _ Hb Hl) as [_ (written & Hout & Hq)].
    exists written. split; [exact Hq|].
    unfold Main.main. rewrite Hbanner, Hloop.
    unfold Main.print_summary. cbn [List.length Nat.ltb Nat.leb Nat.eqb].
    unfold print, emit. rewrite Hout, <- app_assoc. reflexivity.
Qed.

End EmptySession.

(** * The program at work *)

(** Settles that the blocks of a bar of a given number of calories fit a
    given machine. *)
Ltac fits_at_sight :=
  unfold bar_fits; cbv zeta;
  match goal with
  | |- context [Qfloor ?x] =>
      let squares := eval vm_compute in (Qfloor x) in
      change (Qfloor x) with squares
  end;
  cbn [maxsize memory machine64]; lia.

Section Examples.

(** A session of one exercise: 150 pounds, 20 miles in an hour. *)
Lemma exercises_only_appended_witness :
  exists calories w2,
    Final.main_loop (parser := Decimal.parser) (unicode := PlainText.text) 6 []
      (World ["biking"; "150"; "20"; "60"; "exit"] [])
    = Some (Ok [("biking", calories)] w2)
    /\ Forall well_formed [("biking", calories)]
    /\ stdin w2 = [].
Proof.
  destruct (exercises_only_appended (parser := Decimal.parser)
              (unicode := PlainText.text) (machine := machine64)) as (H & _).
  pose proof (fun exercises' w' =>
                H 6%nat [] exercises' (World ["biking"; "150"; "20"; "60"; "exit"] []) w')
    as H'.
  edestruct H' as (added & Heq & Hwf & Hloop); [reflexivity|].
  cbn [app] in Heq. subst added.
  eexists. eexists. split; [exact Hloop|]. split; [exact Hwf | reflexivity].
Defined.


(** The session that only says [exit]. *)
Lemma no_exercises_notice_witness :
  exists written,
    Forall quiet written
    /\ Final.main (parser := Decimal.parser) (unicode := PlainText.text)
         (machine := machine64) (World ["exit"] [])
       = Some (Ok tt (World []
                        ([] ++ written
                            ++ [Print [VStr (NL ++ "No exercises recorded.")] " " NL])%list)).
Proof.
  destruct (no_exercises_notice (parser := Decimal.parser)
              (unicode := PlainText.text) (machine := machine64))
    as (_ & _ & H & _).
  edestruct (H (World ["exit"] [])) as (written & Hq & Hmain);
    [reflexivity | reflexivity |].
  exists written. split; [exact Hq | exact Hmain].
Defined.

End Examples.

(** * More on the readers *)

Section LoopRuns.
Context {A : Type} (prompt : string) (body : string -> list event * option A).

(** The loop passes over the lines its body turns down and ends on the
    first line the body decides on. *)
Lemma read_until_first (skipped : list string) (line : string) (rest : list string)
    (out : list event) (a : A) :
  Forall (fun l => snd (body l) = None) skipped ->
  snd (body line) = Some a ->
  exists written,
    read_until prompt body (skipped ++ line :: rest) out
    = Ok a (World rest (out ++ written)%list).
Proof.
  intros Hs Ha. revert out. induction Hs as [|l skipped Hl _ IH]; intros out; cbn.
  - rewrite Ha. eexists. reflexivity.
  - rewrite Hl. destruct (IH (out ++ Prompt prompt :: fst (body l))%list) as [written H].
    rewrite H, <- app_assoc. eexists. reflexivity.
Qed.

(** With no such line the loop ends with [EOFError], all lines read. *)
Lemma read_until_exhausted (lines : list string) (out : list event) :
  Forall (fun l => snd (body l) = None) lines ->
  exists written,
    read_until prompt body lines out = Raise EOFError (World [] (out ++ written)%list).
Proof.
  intros Hs. revert out. induction Hs as [|l lines Hl _ IH]; intros out; cbn.
  - eexists. reflexivity.
  - rewrite Hl. destruct (IH (out ++ Prompt prompt :: fst (body l))%list) as [written H].
    rewrite H, <- app_assoc. eexists. reflexivity.
Qed.

End LoopRuns.

Section FirstValidNumber.
Context {parser : FloatParser} {unicode : Text} {machine : Machine}.

(** A text is turned down when it does not read as a number above zero. *)
Lemma final_positive_number_round_none (line : string) :
  snd (Final.positive_number_round line) = None
  <-> (forall x, py_float (lower (strip line)) = Some x -> x <= 0).
Proof.
  unfold Final.positive_number_round.
  destruct (py_float (lower (strip line))) as [x|].
  - destruct (Qlt_bool 0 x) eqn:E; cbn; split.
    + discriminate.
    + intros H. apply Qlt_bool_iff in E. specialize (H x eq_refl). lra.
    + intros _ y [= <-]. now apply Qlt_bool_false_iff.
    + reflexivity.
  - cbn. split; [discriminate | reflexivity].
Qed.

Lemma main_positive_number_round_none (line : string) :
  snd (Main.positive_number_round line) = None
  <-> (forall x, py_float (strip line) = Some x -> x <= 0).
Proof.
  unfold Main.positive_number_round.
  destruct (py_float (strip line)) as [x|].
  - destruct (Qlt_bool 0 x) eqn:E; cbn; split.
    + discriminate.
    + intros H. apply Qlt_bool_iff in E. specialize (H x eq_refl). lra.
    + intros _ y [= <-]. now apply Qlt_bool_false_iff.
    + reflexivity.
  - cbn. split; [discriminate | reflexivity].
Qed.

Lemma final_positive_number_round_some (line : string) (x : Q) :
  snd (Final.positive_number_round line) = Some x
  <-> py_float (lower (strip line)) = Some x /\ 0 < x.
Proof.
  unfold Final.positive_number_round.
  destruct (py_float (lower (strip line))) as [y|].
  - destruct (Qlt_bool 0 y) eqn:E; cbn; split.
    + intros [= <-]. apply Qlt_bool_iff in E. auto.
    + now intros [[= <-] _].
    + discriminate.
    + intros [[= <-] H]. apply Qlt_bool_false_iff in E. lra.
  - cbn. split; [discriminate | now intros [? _]].
Qed.

Lemma main_positive_number_round_some (line : string) (x : Q) :
  snd (Main.positive_number_round line) = Some x
  <-> py_float (strip line) = Some x /\ 0 < x.
Proof.
  unfold Main.positive_number_round.
  destruct (py_float (strip line)) as [y|].
  - destruct (Qlt_bool 0 y) eqn:E; cbn; split.
    + intros [= <-]. apply Qlt_bool_iff in E. auto.
    + now intros [[= <-] _].
    + discriminate.
    + intros [[= <-] H]. apply Qlt_bool_false_iff in E. lra.
  - cbn. split; [discriminate | now intros [? _]].
Qed.

(** X2.  The reader of a positive number returns the number of the first
    line that reads as a number above zero and leaves the lines after it;
    every line before it (text that is no number, zero, a negative number)
    is consumed.  When it has returned, the input was of that shape; when
    no line qualifies it ends with [EOFError] on an empty input.
    [Final.py] reads the line trimmed and in lower case, [Main.py]
    trimmed. *)
Theorem get_positive_number_first_valid (prompt : string) :
  let final_text line := lower (strip line) in
  let main_text line := strip line in
  let invalid (text : string -> string) line :=
    forall x, py_float (text line) = Some x -> x <= 0 in
  (forall skipped line rest out number,
      Forall (invalid final_text) skipped ->
      py_float (final_text line) = Some number -> 0 < number ->
      exists written,
        Final.get_positive_number prompt (World (skipped ++ line :: rest) out)
        = Ok number (World rest (out ++ written)%list))
  /\ (forall lines out,
         Forall (invalid final_text) lines ->
         exists written,
           Final.get_positive_number prompt (World lines out)
           = Raise EOFError (World [] (out ++ written)%list))
  /\ (forall w number w',
         Final.get_positive_number prompt w = Ok number w' ->
         exists skipped line,
           stdin w = (skipped ++ line :: stdin w')%list
           /\ Forall (invalid final_text) skipped
           /\ py_float (final_text line) = Some number /\ 0 < number)
  /\ (forall skipped line rest out number,
         Forall (invalid main_text) skipped ->
         py_float (main_text line) = Some number -> 0 < number ->
         exists written,
           Main.get_positive_number prompt (World (skipped ++ line :: rest) out)
           = Ok number (World rest (out ++ written)%list))
  /\ (forall lines out,
         Forall (invalid main_text) lines ->
         exists written,
           Main.get_positive_number prompt (World lines out)
           = Raise EOFError (World [] (out ++ written)%list))
  /\ (forall w number w',
         Main.get_positive_number prompt w = Ok number w' ->
         exists skipped line,
           stdin w = (skipped ++ line :: stdin w')%list
           /\ Forall (invalid main_text) skipped
           /\ py_float (main_text line) = Some number /\ 0 < number).
Proof.
  intros final_text main_text invalid.
  split; [|split; [|split; [|split; [|split]]]].
  - intros skipped line rest out number Hs Hp Hpos.
    apply read_until_first.
    + eapply Forall_impl; [|exact Hs]. intros l. apply final_positive_number_round_none.
    + apply final_positive_number_round_some. auto.
  - intros lines out Hs. apply read_until_exhausted.
    eapply Forall_impl; [|exact Hs]. intros l. apply final_positive_number_round_none.
  - intros w number w' H. apply input_loop_ok in H.
    destruct H as (skipped & line & E & Hs & Ha).
    exists skipped, line. split; [exact E|]. split.
    + eapply Forall_impl; [|exact Hs].
      intros l Hl. exact (proj1 (final_positive_number_round_none l) Hl).
    + now apply final_positive_number_round_some.
  - intros skipped line rest out number Hs Hp Hpos.
    apply read_until_first.
    + eapply Forall_impl; [|exact Hs]. intros l. apply main_positive_number_round_none.
    + apply main_positive_number_round_some. auto.
  - intros lines out Hs. apply read_until_exhausted.
    eapply Forall_impl; [|exact Hs]. intros l. apply main_positive_number_round_none.
  - intros w number w' H. apply input_loop_ok in H.
    destruct H as (skipped & line & E & Hs & Ha).
    exists skipped, line. split; [exact E|]. split.
    + eapply Forall_impl; [|exact Hs].
      intros l Hl. exact (proj1 (main_positive_number_round_none l) Hl).
    + now apply main_positive_number_round_some.
Qed.

End FirstValidNumber.

Section FirstValidNumberExample.

(** Words, a negative number and zero are passed over; 2.5 is returned and
    the line after it is left. *)
Lemma get_positive_number_first_valid_witness :
  exists written,
    Final.get_positive_number (parser := Decimal.parser) (unicode := PlainText.text)
      "Weight (in pounds)?"
      (World ["ten"; "-3"; "0"; " 2.5 "; "7"] [])
    = Ok (5 # 2) (World ["7"] ([] ++ written)%list).
Proof.
  destruct (get_positive_number_first_valid (parser := Decimal.parser) (unicode := PlainText.text)
              "Weight (in pounds)?") as (H & _).
  apply (H ["ten"; "-3"; "0"] " 2.5 " ["7"] [] (5 # 2)).
  - repeat constructor; intros x [= <-]; discriminate.
  - reflexivity.
  - reflexivity.
Defined.

End FirstValidNumberExample.

Section FirstOccurrence.
Context {unicode : Text}.

Lemma list_index_first (x : string) (options : list string) (i : nat) :
  list_index x options = Some i ->
  forall j, (j < i)%nat -> nth_error options j <> Some x.
Proof.
  revert i. induction options as [|o options IH]; cbn; [discriminate|].
  intros i. destruct (String.eqb_spec o x) as [-> | Hne].
  - intros [= <-] j Hj. lia.
  - destruct (list_index x options) as [k|]; cbn; [|discriminate].
    intros [= <-] [|j] Hj; cbn.
    + congruence.
    + apply (IH k eq_refl). lia.
Qed.

Lemma list_index_complete (x : string) (options : list string) (i : nat) :
  nth_error options i = Some x ->
  (forall j, (j < i)%nat -> nth_error options j <> Some x) ->
  list_index x options = Some i.
Proof.
  revert i. induction options as [|o options IH]; intros [|i] Hx Hfirst; cbn in *;
    try discriminate.
  - inversion Hx; subst. now rewrite String.eqb_refl.
  - destruct (String.eqb_spec o x) as [-> | Hne].
    + exfalso. apply (Hfirst O); [lia | reflexivity].
    + rewrite (IH i Hx); [reflexivity|].
      intros j Hj. apply (Hfirst (S j)). lia.
Qed.

Lemma list_index_lt (x : string) (options : list string) (i : nat) :
  list_index x options = Some i -> (i < List.length options)%nat.
Proof.
  intros H. apply list_index_nth in H. apply nth_error_Some. congruence.
Qed.

(** X3.  The reader of an option returns the position at which the line,
    as [strip] and [lower] leave it, first occurs among the options: a
    position within the list, and in [Final.py] never that of the word
    [options].  A line that reads as an option is accepted at once, at its
    first position.  In [Final.py] the line [options] prints the heading,
    every option on a line of its own and an empty line, moves no cursor
    up, and the reader goes on with the lines that remain. *)
Theorem get_index_of_one_of_result (prompt : string) (options : list string) :
  (forall w i w',
      Final.get_index_of_one_of prompt options w = Ok i w' ->
      exists option skipped line,
        nth_error options i = Some option
        /\ (forall j, (j < i)%nat -> nth_error options j <> Some option)
        /\ (i < List.length options)%nat
        /\ option <> "options"
        /\ stdin w = (skipped ++ line :: stdin w')%list
        /\ lower (strip line) = option)
  /\ (forall line rest out i,
         let text := lower (strip line) in
         text <> "options" ->
         nth_error options i = Some text ->
         (forall j, (j < i)%nat -> nth_error options j <> Some text) ->
         Final.get_index_of_one_of prompt options (World (line :: rest) out)
         = Ok i (World rest
                   (out ++ [Prompt (ljust prompt 30 ++ " | " ++ CLEAR_REST_OF_LINE);
                            Print [VStr CLEAR_REST_OF_SCREEN] " " EmptyString])%list))
  /\ (forall line rest out,
         lower (strip line) = "options" ->
         Final.get_index_of_one_of prompt options (World (line :: rest) out)
         = Final.get_index_of_one_of prompt options
             (World rest
                (out ++ Prompt (ljust prompt 30 ++ " | " ++ CLEAR_REST_OF_LINE)
                     :: Print [VStr CLEAR_REST_OF_SCREEN] " " EmptyString
                     :: Print [VStr (NL ++ "Options:")] " " NL
                     :: List.map (fun option => Print [VStr option] " " NL) options
                     ++ [Print [VStr EmptyString] " " NL])%list))
  /\ (forall w i w',
         Main.get_index_of_one_of prompt options w = Ok i w' ->
         exists option skipped line,
           nth_error options i = Some option
           /\ (forall j, (j < i)%nat -> nth_error options j <> Some option)
           /\ (i < List.length options)%nat
           /\ stdin w = (skipped ++ line :: stdin w')%list
           /\ lower (strip line) = option)
  /\ (forall line rest out i,
         let text := lower (strip line) in
         nth_error options i = Some text ->
         (forall j, (j < i)%nat -> nth_error options j <> Some text) ->
         Main.get_index_of_one_of prompt options (World (line :: rest) out)
         = Ok i (World rest
                   (out ++ [Prompt (ljust prompt 28 ++ " | " ++ CLEAR_REST_OF_LINE);
                            Print [VStr CLEAR_REST_OF_SCREEN] " " EmptyString])%list)).
Proof.
  split; [|split; [|split; [|split]]].
  - intros w i w' H. apply input_loop_ok in H.
    destruct H as (skipped & line & E & _ & H).
    unfold Final.index_round in H.
    destruct (String.eqb_spec (lower (strip line)) "options") as [|Hopt]; [discriminate|].
    destruct (list_index (lower (strip line)) options) as [j|] eqn:Ei; [|discriminate].
    cbn in H. inversion H; subst j.
    exists (lower (strip line)), skipped, line.
    split; [now apply list_index_nth|].
    split; [now apply list_index_first|].
    split; [eapply list_index_lt, Ei|]. auto.
  - intros line rest out i text Hopt Hnth Hfirst.
    unfold Final.get_index_of_one_of. rewrite input_loop_accepts with (a := i).
    + unfold Final.index_round. fold text.
      destruct (String.eqb_spec text "options") as [|_]; [contradiction|].
      rewrite (list_index_complete _ _ _ Hnth Hfirst). reflexivity.
    + unfold Final.index_round. fold text.
      destruct (String.eqb_spec text "options") as [|_]; [contradiction|].
      rewrite (list_index_complete _ _ _ Hnth Hfirst). reflexivity.
  - intros line rest out Hopt.
    unfold Final.get_index_of_one_of. rewrite input_loop_rejects.
    + unfold Final.index_round. rewrite Hopt. reflexivity.
    + unfold Final.index_round. rewrite Hopt. reflexivity.
  - intros w i w' H. apply input_loop_ok in H.
    destruct H as (skipped & line & E & _ & H).
    unfold Main.index_round in H.
    destruct (list_index (lower (strip line)) options) as [j|] eqn:Ei; [|discriminate].
    cbn in H. inversion H; subst j.
    exists (lower (strip line)), skipped, line.
    split; [now apply list_index_nth|].
    split; [now apply list_index_first|].
    split; [eapply list_index_lt, Ei|]. auto.
  - intros line rest out i text Hnth Hfirst.
    unfold Main.get_index_of_one_of. rewrite input_loop_accepts with (a := i).
    + unfold Main.index_round. fold text.
      rewrite (list_index_complete _ _ _ Hnth Hfirst). reflexivity.
    + unfold Main.index_round. fold text.
      rewrite (list_index_complete _ _ _ Hnth Hfirst). reflexivity.
Qed.

End FirstOccurrence.

Section FirstOccurrenceExample.

(** [what] is no command; [  Running ] is the command at position 1. *)
Lemma get_index_of_one_of_result_witness :
  exists option written,
    Final.get_index_of_one_of (unicode := PlainText.text) "Command?" Final.COMMANDS
      (World ["what"; "  Running "; "60"] [])
    = Ok 1%nat (World ["60"] written)
    /\ nth_error Final.COMMANDS 1 = Some option
    /\ option <> "options"
    /\ option = "running".
Proof.
  destruct (get_index_of_one_of_result (unicode := PlainText.text)
              "Command?" Final.COMMANDS) as (H & _).
  edestruct (H (World ["what"; "  Running "; "60"] []) 1%nat)
    as (option & skipped & line & Hnth & _ & _ & Hopt & _); [reflexivity|].
  exists option. eexists. split; [reflexivity|].
  split; [exact Hnth|]. split; [exact Hopt|].
  cbn in Hnth. congruence.
Defined.

End FirstOccurrenceExample.


Section YesOrNo.
Context {unicode : Text}.

Lemma yes_or_no_round_answer (shown default_response : string) (default : option bool)
    (line : string) (answer : bool) :
  snd (Final.yes_or_no_round shown default_response default line) = Some answer ->
  let text := lower (strip line) in
  (answer = true /\ (text = "yes" \/ text = "y"))
  \/ (answer = false /\ (text = "no" \/ text = "n"))
  \/ (text = EmptyString /\ default = Some answer).
Proof.
  unfold Final.yes_or_no_round. cbn zeta.
  destruct (String.eqb_spec (lower (strip line)) "yes") as [Hyes|_].
  { cbn. intros [= <-]. auto. }
  destruct (String.eqb_spec (lower (strip line)) "y") as [Hy|_].
  { cbn. intros [= <-]. auto. }
  destruct (String.eqb_spec (lower (strip line)) "no") as [Hno|_].
  { cbn. intros [= <-]. auto. }
  destruct (String.eqb_spec (lower (strip line)) "n") as [Hn|_].
  { cbn. intros [= <-]. auto. }
  cbn. destruct default as [response|]; [|discriminate].
  destruct (String.eqb_spec (lower (strip line)) EmptyString) as [Hempty|_];
    [|discriminate].
  cbn. intros [= <-]. auto.
Qed.

(** X4.  The yes-or-no reader of [Final.py].  The line is trimmed and put
    in lower case; [yes] and [y] answer true and [no] and [n] answer false,
    whatever the default is.  An empty line answers the default when there
    is one, and the prompt is then written again, one line up, with the
    default's word after it.  Any other line, and the empty line when there
    is no default, is turned down with a message and the question is asked
    again on the lines that remain.  An answer is never given otherwise. *)
Theorem get_yes_or_no_answers (prompt : string) (default : option bool) :
  let default_response :=
    match default with Some true => "yes" | _ => "no" end in
  let shown :=
    ljust (match default with
           | Some _ => prompt ++ " (default: " ++ default_response ++ ")"
           | None => prompt
           end) 30 ++ " | " ++ CLEAR_REST_OF_LINE in
  let cleared := Print [VStr CLEAR_REST_OF_SCREEN] " " EmptyString in
  let cursor_up := String "027" "[A" in
  (forall line rest out,
      let text := lower (strip line) in
      text = "yes" \/ text = "y" ->
      Final.get_yes_or_no prompt default (World (line :: rest) out)
      = Ok true (World rest (out ++ [Prompt shown; cleared])%list))
  /\ (forall line rest out,
         let text := lower (strip line) in
         text = "no" \/ text = "n" ->
         Final.get_yes_or_no prompt default (World (line :: rest) out)
         = Ok false (World rest (out ++ [Prompt shown; cleared])%list))
  /\ (forall line rest out answer,
         lower (strip line) = EmptyString ->
         default = Some answer ->
         Final.get_yes_or_no prompt default (World (line :: rest) out)
         = Ok answer
             (World rest
                (out ++ [Prompt shown; cleared;
                         Print [VStr cursor_up] " " EmptyString;
                         Print [VStr (shown ++ default_response)] " " NL])%list))
  /\ (forall line rest out,
         let text := lower (strip line) in
         ~ In text ["yes"; "y"; "no"; "n"] ->
         (text = EmptyString -> default = None) ->
         Final.get_yes_or_no prompt default (World (line :: rest) out)
         = Final.get_yes_or_no prompt default
             (World rest
                (out ++ [Prompt shown; cleared;
                         Print [VStr ("'" ++ text
                                      ++ "' is not a yes or no. Please try again.")]
                           " " NL;
                         Print [VStr (cursor_up ++ cursor_up)] " " EmptyString])%list))
  /\ (forall w answer w',
         Final.get_yes_or_no prompt default w = Ok answer w' ->
         exists skipped line,
           stdin w = (skipped ++ line :: stdin w')%list
           /\ let text := lower (strip line) in
              (answer = true /\ (text = "yes" \/ text = "y"))
              \/ (answer = false /\ (text = "no" \/ text = "n"))
              \/ (text = EmptyString /\ default = Some answer)).
Proof.
  intros default_response shown cleared cursor_up.
  split; [|split; [|split; [|split]]].
  - intros line rest out text H. change (Final.get_yes_or_no prompt default)
      with (input_loop shown (Final.yes_or_no_round shown default_response default)).
    assert (E : Final.yes_or_no_round shown default_response default line
                = ([cleared], Some true)).
    { unfold Final.yes_or_no_round. fold text.
      destruct H as [-> | ->]; reflexivity. }
    rewrite input_loop_accepts with (a := true); rewrite E; reflexivity.
  - intros line rest out text H. change (Final.get_yes_or_no prompt default)
      with (input_loop shown (Final.yes_or_no_round shown default_response default)).
    assert (E : Final.yes_or_no_round shown default_response default line
                = ([cleared], Some false)).
    { unfold Final.yes_or_no_round. fold text.
      destruct H as [-> | ->]; reflexivity. }
    rewrite input_loop_accepts with (a := false); rewrite E; reflexivity.
  - intros line rest out answer Hempty Hdefault. change (Final.get_yes_or_no prompt default)
      with (input_loop shown (Final.yes_or_no_round shown default_response default)).
    assert (E : Final.yes_or_no_round shown default_response default line
                = ([cleared; Print [VStr cursor_up] " " EmptyString;
                    Print [VStr (shown ++ default_response)] " " NL], Some answer)).
    { unfold Final.yes_or_no_round. rewrite Hempty, Hdefault. reflexivity. }
    rewrite input_loop_accepts with (a := answer); rewrite E; reflexivity.
  - intros line rest out text Hnot Hempty. change (Final.get_yes_or_no prompt default)
      with (input_loop shown (Final.yes_or_no_round shown default_response default)).
    assert (E : Final.yes_or_no_round shown default_response default line
                = ([cleared;
                    Print [VStr ("'" ++ text
                                 ++ "' is not a yes or no. Please try again.")] " " NL;
                    Print [VStr (cursor_up ++ cursor_up)] " " EmptyString], None)).
    { unfold Final.yes_or_no_round. fold text.
      destruct (String.eqb_spec text "yes") as [H|_]; [exfalso; apply Hnot; cbn; auto|].
      destruct (String.eqb_spec text "y") as [H|_]; [exfalso; apply Hnot; cbn; auto|].
      destruct (String.eqb_spec text "no") as [H|_]; [exfalso; apply Hnot; cbn; auto|].
      destruct (String.eqb_spec text "n") as [H|_]; [exfalso; apply Hnot; cbn; auto|].
      cbn. destruct default as [response|]; [|reflexivity].
      destruct (String.eqb_spec text EmptyString) as [H|_]; [|reflexivity].
      now specialize (Hempty H). }
    rewrite input_loop_rejects; rewrite E; reflexivity.
  - intros w answer w' H.
    change (Final.get_yes_or_no prompt default)
      with (input_loop shown (Final.yes_or_no_round shown default_response default)) in H.
    apply input_loop_ok in H. destruct H as (skipped & line & E & _ & H).
    exists skipped, line. split; [exact E|].
    eapply yes_or_no_round_answer, H.
Qed.

End YesOrNo.

Section YesOrNoExample.

(** [ Y ] is a yes whatever the default; an empty line takes the default
    [False] of the treadmill question. *)
Lemma get_yes_or_no_answers_witness :
  exists out out',
    Final.get_yes_or_no (unicode := PlainText.text) "On a treadmill?" (Some false)
      (World [" Y "; "7"] [])
    = Ok true (World ["7"] out)
    /\ Final.get_yes_or_no (unicode := PlainText.text) "On a treadmill?" (Some false)
         (World [" "; "7"] [])
       = Ok false (World ["7"] out').
Proof.
  destruct (get_yes_or_no_answers (unicode := PlainText.text)
              "On a treadmill?" (Some false))
    as (Hyes & _ & Hdefault & _).
  eexists. eexists. split.
  - apply (Hyes " Y " ["7"] []). right. reflexivity.
  - apply (Hdefault " " ["7"] [] false); reflexivity.
Defined.

End YesOrNoExample.

(** * Answered rounds *)

Section Answers.




Lemma consumes_bind {A B} (m : IO A) (k : A -> IO B) (first then_ : list string)
    (a : A) (b : B) (written written' : list event) :
  consumes m first a written ->
  consumes (k a) then_ b written' ->
  consumes (bind m k) (first ++ then_)%list b (written ++ written')%list.
Proof.
  intros Hm Hk rest out. unfold bind.
  rewrite <- app_assoc, Hm, Hk, app_assoc. reflexivity.
Qed.




End Answers.

Section AnsweredReaders.
Context {parser : FloatParser} {unicode : Text} {machine : Machine}.





End AnsweredReaders.


Section AnsweredSteps.
Context {unicode : Text}.

Lemma consumes_last {A B} (m : IO A) (k : A -> IO B) (lines : list string)
    (a : A) (b : B) (written written' : list event) :
  consumes m lines a written ->
  consumes (k a) [] b written' ->
  consumes (bind m k) lines b (written ++ written')%list.
Proof.
  intros Hm Hk. rewrite <- (app_nil_r lines). now apply consumes_bind with (a := a).
Qed.




End AnsweredSteps.



Section FinalRounds.
Context {parser : FloatParser} {unicode : Text} {machine : Machine}.



End FinalRounds.

Section MainRounds.
Context {parser : FloatParser} {unicode : Text} {machine : Machine}.


End MainRounds.

Section AnsweredRoundsExample.



End AnsweredRoundsExample.

(** * What a session can end with *)

Section OnlyEndOfInput.


Lemma only_eof_emit (evs : list event) : only_eof (emit evs).
Proof. intros w e w' H. discriminate. Qed.








End OnlyEndOfInput.


Section SafeCalculators.
Context {parser : FloatParser} {unicode : Text} {machine : Machine}.






End SafeCalculators.

Section SafeLoop.
Variable round : list exercise -> IO (bool * list exercise).
Variable loop : nat -> list exercise -> world -> option (result (list exercise)).

Hypothesis loop_O : forall exercises w, loop O exercises w = None.
Hypothesis loop_S :
  forall fuel exercises w,
    loop (S fuel) exercises w
    = match round exercises w with
      | Ok (stop, exercises') w' =>
          if stop then Some (Ok exercises' w') else loop fuel exercises' w'
      | Raise e w' => Some (Raise e w')
      end.
Hypothesis round_only_eof : forall exercises, only_eof (round exercises).


Hypothesis round_consumes :
  forall exercises w r w',
    round exercises w = Ok r w' -> (List.length (stdin w') < List.length (stdin w))%nat.


End SafeLoop.

Section SafeSession.
Context {parser : FloatParser} {unicode : Text} {machine : Machine}.


End SafeSession.

Section SafeSessionExample.


End SafeSessionExample.

(** * The bars of the summary, one by one *)

Section BarsInOrder.
Context {machine : Machine}.
Variable bar : string -> Q -> IO unit.
Hypothesis bar_line :
  forall label calories,
    bar_fits calories ->
    exists line,
      forall w, bar label calories w = Ok tt (World (stdin w) (stdout w ++ [line])%list).

(** The [for] loop of the summary writes the bar of each entry at the
    entry's own position, under the entry's number. *)
Lemma summary_lines (exercises done rest : list exercise) (total : Q) (w : world) :
  exercises = (done ++ rest)%list ->
  Forall (fun entry => bar_fits (snd entry)) rest ->
  exists bars,
    for_range (seq (List.length done) (List.length rest))
      (fun index total_calories_burned =>
         bind (lift (getitem exercises (Z.of_nat index))) (fun entry =>
         bind (bar (str_of_nat (index + 1) ++ ". " ++ fst entry) (snd entry)) (fun _ =>
         ret (total_calories_burned + snd entry))))
      total w
    = Ok (fold_left Qplus (List.map snd rest) total)
        (World (stdin w) (stdout w ++ bars)%list)
    /\ List.length bars = List.length rest
    /\ (forall j entry,
           nth_error rest j = Some entry ->
           exists line,
             nth_error bars j = Some line
             /\ forall w0,
                 bar (str_of_nat (List.length done + j + 1) ++ ". " ++ fst entry)
                   (snd entry) w0
                 = Ok tt (World (stdin w0) (stdout w0 ++ [line])%list)).
Proof.
  revert done total w.
  induction rest as [|entry rest IH]; intros done total w E Hfits.
  - exists []. split; [|split].
    + cbn. unfold ret. rewrite app_nil_r. now destruct w.
    + reflexivity.
    + intros [|j] entry H; discriminate.
  - cbn [List.length seq for_range List.map fold_left].
    unfold bind at 1. unfold bind at 1.
    assert (Hget : getitem exercises (Z.of_nat (List.length done)) = inr entry).
    { apply getitem_nth. subst exercises.
      rewrite nth_error_app2, Nat.sub_diag by lia. reflexivity. }
    rewrite Hget. cbn [lift ret]. unfold bind at 1.
    inversion Hfits as [|? ? Hentry Hrest]; subst.
    destruct (bar_line (str_of_nat (List.length done + 1) ++ ". " ++ fst entry)
                (snd entry) Hentry) as [line Hline].
    rewrite Hline. cbn [ret].
    destruct (IH (done ++ [entry])%list (total + snd entry)
                (World (stdin w) (stdout w ++ [line])%list))
      as (bars & Hrun & Hlen & Hbars).
    { now rewrite <- app_assoc. }
    { exact Hrest. }
    rewrite length_app, Nat.add_1_r in Hrun, Hbars. cbn [List.length] in Hrun, Hbars.
    exists (line :: bars). split; [|split].
    + rewrite Hrun. cbn [stdin stdout]. now rewrite <- app_assoc.
    + cbn. now rewrite Hlen.
    + intros [|j] entry' H; cbn in H.
      * inversion H; subst entry'. exists line. split; [reflexivity|].
        now rewrite Nat.add_0_r.
      * destruct (Hbars j entry' H) as (line' & Hnth & Hbar).
        exists line'. split; [exact Hnth|].
        intros w0. rewrite <- Hbar. do 3 f_equal. lia.
Qed.

End BarsInOrder.

Section SummaryInOrder.
Context {machine : Machine}.

Lemma final_bar_line (label : string) (calories : Q) :
  bar_fits calories ->
  exists line,
    forall w,
      Final.print_calories_bar label calories w
      = Ok tt (World (stdin w) (stdout w ++ [line])%list).
Proof.
  intros Hfits. eexists. intros w.
  destruct (print_calories_bar_writes label calories w Hfits)
    as (character & _ & _ & Hcharacter & H & _).
  subst character. exact H.
Qed.

Lemma main_bar_line (label : string) (calories : Q) :
  bar_fits calories ->
  exists line,
    forall w,
      Main.print_calories_bar label calories w
      = Ok tt (World (stdin w) (stdout w ++ [line])%list).
Proof.
  intros Hfits. eexists. intros w.
  destruct (print_calories_bar_writes label calories w Hfits)
    as (character & _ & _ & Hcharacter & _ & H).
  subst character. exact H.
Qed.

(** X8.  The summary of a session with exercises, the blocks of whose bars
    are within the machine's reach, writes, between the heading and the
    total, one bar for each entry, in the order in which the entries were
    recorded: the bar at position [i] (from 0) is the bar of calories of
    the entry at position [i], and its label is the number [i + 1], a full
    stop, a space and the entry's command. *)
Theorem summary_bars_in_order (exercises : list exercise) (w : world) :
  exercises <> [] ->
  Forall (fun entry => bar_fits (snd entry)) exercises ->
  let heading := Print [VStr (NL ++ "Calories burned per exercise:")] " " NL in
  exists final_bars main_bars final_total main_total,
    Final.print_summary exercises w
    = Ok tt (World (stdin w) (stdout w ++ heading :: final_bars ++ [final_total])%list)
    /\ Main.print_summary exercises w
       = Ok tt (World (stdin w) (stdout w ++ heading :: main_bars ++ [main_total])%list)
    /\ List.length final_bars = List.length exercises
    /\ List.length main_bars = List.length exercises
    /\ (forall i command calories,
           nth_error exercises i = Some (command, calories) ->
           let label := str_of_nat (i + 1) ++ ". " ++ command in
           let blocks :=
             String.concat EmptyString
               (List.repeat "█" (Z.to_nat (Qfloor (calories / 100)))) in
           exists character,
             In character REMAINDER_CHARACTERS
             /\ nth_error final_bars i
                = Some (Print [VStr (ljust label 15 ++ blocks ++ character);
                               VInt (py_round calories)] " " NL)
             /\ nth_error main_bars i
                = Some (Print [VStr (ljust label 13 ++ blocks ++ character);
                               VInt (py_round calories)] " " NL)).
Proof.
  intros Hne Hfits heading.
  destruct (summary_lines Final.print_calories_bar final_bar_line exercises []
              exercises 0 (World (stdin w) (stdout w ++ [heading])%list) eq_refl Hfits)
    as (final_bars & Hfinal & Hflen & Hfbars).
  destruct (summary_lines Main.print_calories_bar main_bar_line exercises []
              exercises 0 (World (stdin w) (stdout w ++ [heading])%list) eq_refl Hfits)
    as (main_bars & Hmain & Hmlen & Hmbars).
  exists final_bars, main_bars. eexists. eexists.
  split; [|split; [|split; [|split]]].
  - unfold Final.print_summary. rewrite (nonempty_length _ Hne).
    unfold bind at 1. unfold print at 1, emit at 1.
    unfold bind at 1. cbn [List.length] in Hfinal.
    cbv zeta in Hfinal |- *. cbn [stdin stdout] in Hfinal.
    fold heading. unfold print_event at 1. fold heading. rewrite Hfinal.
    unfold print, emit. cbn [stdin stdout].
    rewrite <- !app_assoc. reflexivity.
  - unfold Main.print_summary. rewrite (nonempty_length _ Hne).
    unfold bind at 1. unfold print at 1, emit at 1.
    unfold bind at 1. cbn [List.length] in Hmain.
    cbv zeta in Hmain |- *. cbn [stdin stdout] in Hmain.
    fold heading. unfold print_event at 1. fold heading. rewrite Hmain.
    unfold print, emit. cbn [stdin stdout].
    rewrite <- !app_assoc. reflexivity.
  - exact Hflen.
  - exact Hmlen.
  - intros i command calories Hnth label blocks.
    destruct (Hfbars i _ Hnth) as (final_bar & Hf1 & Hf2).
    destruct (Hmbars i _ Hnth) as (main_bar & Hm1 & Hm2).
    cbn [List.length Nat.add fst snd] in Hf2, Hm2. fold label in Hf2, Hm2.
    specialize (Hf2 (World [] [])). specialize (Hm2 (World [] [])).
    assert (Hentry : bar_fits calories).
    { rewrite Forall_forall in Hfits.
      apply (Hfits (command, calories)). eapply nth_error_In, Hnth. }
    destruct (print_calories_bar_writes label calories (World [] []) Hentry)
      as (character & Hget & _ & _ & Hfinal_bar & Hmain_bar).
    exists character. split; [eapply getitem_in, Hget|].
    rewrite repeat_string_concat in Hfinal_bar, Hmain_bar.
    fold blocks in Hfinal_bar, Hmain_bar.
    rewrite Hf2 in Hfinal_bar. rewrite Hm2 in Hmain_bar.
    cbn [stdout app] in Hfinal_bar, Hmain_bar.
    inversion Hfinal_bar; subst final_bar. inversion Hmain_bar; subst main_bar.
    auto.
Qed.

End SummaryInOrder.

Section SummaryInOrderExample.

(** Two entries: the first bar is numbered 1, the second 2. *)
Lemma summary_bars_in_order_witness :
  exists final_bars main_bars final_total main_total,
    Final.print_summary (machine := machine64)
      [("biking", 250); ("swimming", 120)] (World [] [])
    = Ok tt (World []
               ([] ++ Print [VStr (NL ++ "Calories burned per exercise:")] " " NL
                   :: final_bars ++ [final_total])%list)
    /\ Main.print_summary (machine := machine64)
         [("biking", 250); ("swimming", 120)] (World [] [])
       = Ok tt (World []
                  ([] ++ Print [VStr (NL ++ "Calories burned per exercise:")] " " NL
                      :: main_bars ++ [main_total])%list)
    /\ nth_error final_bars 0 = Some (Print [VStr "1. biking      ██▌"; VInt 250] " " NL)
    /\ nth_error final_bars 1 = Some (Print [VStr "2. swimming    █░"; VInt 120] " " NL)
    /\ nth_error main_bars 1 = Some (Print [VStr "2. swimming  █░"; VInt 120] " " NL).
Proof.
  destruct (summary_bars_in_order (machine := machine64)
              [("biking", 250); ("swimming", 120)] (World [] []))
    as (final_bars & main_bars & final_total & main_total & Hf & Hm & Hfl & Hml & _);
    [discriminate | repeat constructor; fits_at_sight |].
  exists final_bars, main_bars, final_total, main_total.
  split; [exact Hf|]. split; [exact Hm|].
  destruct final_bars as [|f0 [|f1 [|f2 final_bars]]]; try discriminate Hfl.
  destruct main_bars as [|m0 [|m1 [|m2 main_bars]]]; try discriminate Hml.
  vm_compute in Hf. vm_compute in Hm.
  inversion Hf; subst. inversion Hm; subst.
  repeat split; reflexivity.
Defined.

End SummaryInOrderExample.

(** * Biking, by speed *)

Section BikingBySpeed.





End BikingBySpeed.

(** * A session, round by round *)

Section RoundByRound.
Variable round : list exercise -> IO (bool * list exercise).
Variable loop : nat -> list exercise -> world -> option (result (list exercise)).

Hypothesis loop_O : forall exercises w, loop O exercises w = None.
Hypothesis loop_S :
  forall fuel exercises w,
    loop (S fuel) exercises w
    = match round exercises w with
      | Ok (stop, exercises') w' =>
          if stop then Some (Ok exercises' w') else loop fuel exercises' w'
      | Raise e w' => Some (Raise e w')
      end.
Hypothesis round_consumes :
  forall exercises w r w',
    round exercises w = Ok r w' -> (List.length (stdin w') < List.length (stdin w))%nat.

(** [rounds]: the lines of each round that records, with its entry. *)
Variable rounds : list (list string * exercise).
Variable exit_line : string.
Hypothesis rounds_record :
  forall exercises,
    Forall (fun r => exists written,
                consumes (round exercises) (fst r)
                  (false, (exercises ++ [snd r])%list) written) rounds.
Hypothesis exit_leaves :
  forall exercises,
    exists written, consumes (round exercises) [exit_line] (true, exercises) written.



End RoundByRound.

Section SessionInOrder.
Context {parser : FloatParser} {unicode : Text} {machine : Machine}.




End SessionInOrder.

Section SessionExample.


End SessionExample.

(** * Answers that are turned down *)

Section TurnedDown.
Context {parser : FloatParser} {unicode : Text} {machine : Machine}.

Lemma list_index_none (x : string) (options : list string) :
  ~ In x options -> list_index x options = None.
Proof.
  induction options as [|o options IH]; intros H; cbn; [reflexivity|].
  destruct (String.eqb_spec o x) as [-> | _]; [exfalso; apply H; now left|].
  rewrite IH; [reflexivity|]. intros Hin. apply H. now right.
Qed.

(** X11.  An answer that is turned down, the answer being the line as
    [strip] and [lower] leave it.  Whichever reader it is, and in either
    variant, the reader clears what is below the prompt, prints its message
    (one line, or two), moves the cursor up by one line more than it
    printed (the line the answer itself ended), which is the line of the
    prompt, and asks again on the lines that remain.  The readers of
    [Main.py] print one line and go up two; in [Final.py] a text that is
    no number and a text that is no option get a second line, a hint. *)
Theorem rejected_answer_returns_to_prompt (prompt line : string) (rest : list string)
    (out : list event) :
  let text := lower (strip line) in
  let asked width question :=
    Prompt (ljust question width ++ " | " ++ String "027" "[K") in
  let turned_down question (messages : list string) :=
    (question
       :: Print [VStr (String "027" "[J")] " " EmptyString
       :: List.map (fun message => Print [VStr message] " " NL) messages
       ++ [Print [VStr (String.concat EmptyString
                          (List.repeat (String "027" "[A") (S (List.length messages))))]
             " " EmptyString])%list in
  let again {A} (reader : IO A) question messages :=
    reader (World (line :: rest) out)
    = reader (World rest (out ++ turned_down question messages)%list) in
  (py_float text = None ->
   again (Final.get_positive_number prompt) (asked 30%nat prompt)
     ["'" ++ text ++ "' is not a number. Please try again.";
      "(You must use digits, not words, as in '10', not 'ten'.)"])
  /\ (forall number,
         py_float text = Some number -> number <= 0 ->
         again (Final.get_positive_number prompt) (asked 30%nat prompt)
           [text ++ " is not greater than zero. Please try again."])
  /\ (py_float (strip line) = None ->
      again (Main.get_positive_number prompt) (asked 28%nat prompt)
        ["'" ++ strip line ++ "' is not a number. Please try again."])
  /\ (forall number,
         py_float (strip line) = Some number -> number <= 0 ->
         again (Main.get_positive_number prompt) (asked 28%nat prompt)
           ["The number must be positive. Please try again."])
  /\ (forall options,
         ~ In text options -> text <> "options" ->
         again (Final.get_index_of_one_of prompt options) (asked 30%nat prompt)
           ["'" ++ text ++ "' is not an option. Please try again.";
            "(To see the possible options, enter 'options'.)"])
  /\ (forall options,
         ~ In text options ->
         again (Main.get_index_of_one_of prompt options) (asked 28%nat prompt)
           ["'" ++ text ++ "' is not an option. Please try again."])
  /\ (~ In text ["yes"; "y"; "no"; "n"] ->
      again (Final.get_yes_or_no prompt None) (asked 30%nat prompt)
        ["'" ++ text ++ "' is not a yes or no. Please try again."]).
Proof.
  intros text asked turned_down again. subst again turned_down asked. cbv beta.
  split; [|split; [|split; [|split; [|split; [|split]]]]].
  - intros Hnone. unfold Final.get_positive_number.
    rewrite input_loop_rejects;
      unfold Final.positive_number_round; fold text; rewrite Hnone; reflexivity.
  - intros number Hsome Hle. unfold Final.get_positive_number.
    apply Qlt_bool_false_iff in Hle.
    rewrite input_loop_rejects;
      unfold Final.positive_number_round; fold text; rewrite Hsome, Hle; reflexivity.
  - intros Hnone. unfold Main.get_positive_number.
    rewrite input_loop_rejects;
      unfold Main.positive_number_round; rewrite Hnone; reflexivity.
  - intros number Hsome Hle. unfold Main.get_positive_number.
    apply Qlt_bool_false_iff in Hle.
    rewrite input_loop_rejects;
      unfold Main.positive_number_round; rewrite Hsome, Hle; reflexivity.
  - intros options Hnot Hoptions. unfold Final.get_index_of_one_of.
    apply list_index_none in Hnot. apply String.eqb_neq in Hoptions.
    rewrite input_loop_rejects;
      unfold Final.index_round; fold text; rewrite Hoptions, Hnot; reflexivity.
  - intros options Hnot. unfold Main.get_index_of_one_of.
    apply list_index_none in Hnot.
    rewrite input_loop_rejects;
      unfold Main.index_round; fold text; rewrite Hnot; reflexivity.
  - intros Hnot. unfold Final.get_yes_or_no.
    assert (Htests : (text =? "yes") || (text =? "y") = false
                     /\ (text =? "no") || (text =? "n") = false).
    { destruct (String.eqb_spec text "yes"); [exfalso; apply Hnot; cbn; auto|].
      destruct (String.eqb_spec text "y"); [exfalso; apply Hnot; cbn; auto|].
      destruct (String.eqb_spec text "no"); [exfalso; apply Hnot; cbn; auto|].
      destruct (String.eqb_spec text "n"); [exfalso; apply Hnot; cbn; auto|].
      split; reflexivity. }
    destruct Htests as [Hyes Hno].
    rewrite input_loop_rejects;
      unfold Final.yes_or_no_round; fold text; rewrite Hyes, Hno; reflexivity.
Qed.

End TurnedDown.

Section TurnedDownExample.

(** [ten] is no number: two lines are printed and the cursor goes up
    three. *)
Lemma rejected_answer_returns_to_prompt_witness :
  Final.get_positive_number (parser := Decimal.parser) (unicode := PlainText.text)
    "Age (in years)?" (World ["ten"; "10"] [])
  = Final.get_positive_number (parser := Decimal.parser) (unicode := PlainText.text)
      "Age (in years)?"
      (World ["10"]
         ([] ++ [Prompt ("Age (in years)?                | " ++ String "027" "[K");
                 Print [VStr (String "027" "[J")] " " EmptyString;
                 Print [VStr "'ten' is not a number. Please try again."] " " NL;
                 Print [VStr "(You must use digits, not words, as in '10', not 'ten'.)"]
                   " " NL;
                 Print [VStr (String "027" ("[A" ++ String "027" ("[A"
                                ++ String "027" "[A")))] " " EmptyString])%list).
Proof.
  destruct (rejected_answer_returns_to_prompt (parser := Decimal.parser)
              (unicode := PlainText.text)
              "Age (in years)?" "ten" ["10"] []) as (H & _).
  apply H. reflexivity.
Defined.

End TurnedDownExample.
